(** * canvas-auth-utem: authentication and authorization core

    A shallow embedding of [auth.py] (class [AuthenticationSystem]) and of
    the role hierarchy of [config.py], with the properties of the
    specification proved or refuted against it.

    Conventions of the embedding.
    - A Python [str] is the [string] of its UTF-8 bytes; [None] where a
      string is expected is the [None] of [option string].
    - Dictionaries used as tables ([users_db], [login_attempts], the roles of
      the configuration) are [gmap]s; dictionaries used as structures (a user
      profile, an attempt record, the configuration document) are records
      whose fields are [option]s where the code reads them with [.get]. The
      fields hold values of the types that [create_default_users] and
      [create_default_config] write.
    - [time.time()] and [datetime.datetime.now()] are an argument [now : Z]
      (seconds) of the operation that reads the clock; an operation reads
      one instant.
    - Code that can raise returns a [result]; a [try]/[except] is [except_]
      or [try_except].
    - [st.session_state] is a record carried by the system state. Inside a
      Streamlit script run [st.rerun()] records the request and raises the
      script-control exception [RerunException]; outside one it does
      nothing.
    - Logging and the writes to the JSON files have no effect on the values
      studied here and are left out. *)

From Stdlib Require Import ZArith String Ascii List Bool Lia DecimalString.
From stdpp Require Import base option gmap strings list fin_maps.

Open Scope string_scope.

(** ** Python values and exceptions *)

Module Py.

Inductive exn : Type :=
  | ValueError
  | AttributeError
  | RerunException.

(** [ValueError] and [AttributeError] are subclasses of [Exception];
    Streamlit's [RerunException] is a script-control exception, raised to
    halt the running script, and derives from [BaseException] only. *)
Definition is_Exception (e : exn) : bool :=
  match e with
  | ValueError | AttributeError => true
  | RerunException => false
  end.

Inductive result (A : Type) : Type :=
  | Ok (a : A)
  | Raise (e : exn).
Arguments Ok {A} a.
Arguments Raise {A} e.

Definition bind {A B : Type} (r : result A) (k : A -> result B) : result B :=
  match r with
  | Ok a => k a
  | Raise e => Raise e
  end.

#[global] Instance result_bind : MBind result := fun A B k r => bind r k.
#[global] Instance result_ret : MRet result := @Ok.

#[global] Instance exn_eq_dec : EqDecision exn.
Proof. solve_decision. Defined.

(** [try: body except e: handler]: only the named exception is caught. *)
Definition except_ {A : Type} (body : result A) (e : exn) (handler : result A)
  : result A :=
  match body with
  | Ok a => Ok a
  | Raise e' => if decide (e' = e) then handler else Raise e'
  end.

(** [l.index(x)]: position of the first element equal to [x]. *)
Fixpoint index (l : list string) (x : string) : result nat :=
  match l with
  | [] => Raise ValueError
  | y :: l' =>
      if decide (y = x) then Ok 0
      else i ← index l' x; Ok (S i)
  end.

(** [s.endswith(suffix)] for two strings: the last [len(suffix)] characters
    of [s] are compared with [suffix]; a suffix longer than [s] never
    matches and the empty suffix always does. *)
Definition endswith (s suffix : string) : bool :=
  let n := String.length s in
  let m := String.length suffix in
  if (m <=? n)%nat then String.eqb (substring (n - m) m s) suffix else false.

(** [str(n)] and the [{n}] of an f-string, for an integer. *)
Definition str_of_int (n : Z) : string := NilZero.string_of_int (Z.to_int n).

(** Truth value of an optional string ([None] and the empty string are
    false) and of an optional number ([None] and zero are false). *)
Definition str_truthy (v : option string) : bool :=
  match v with
  | Some s => negb (String.eqb s "")
  | None => false
  end.

(** [v and test(v)] for an optional number [v]. *)
Definition num_and (v : option Z) (test : Z -> bool) : bool :=
  match v with
  | Some z => negb (z =? 0)%Z && test z
  | None => false
  end.

(** [str.lower] restricted to ASCII text: the letters A to Z are mapped to
    a to z and every other character is kept. *)
Definition ascii_lower_char (c : ascii) : ascii :=
  let n := nat_of_ascii c in
  if (65 <=? n)%nat && (n <=? 90)%nat then ascii_of_nat (n + 32) else c.

Fixpoint ascii_lower (s : string) : string :=
  match s with
  | EmptyString => EmptyString
  | String c s' => String (ascii_lower_char c) (ascii_lower s')
  end.

(** [key in d] for a key that may be absent. *)
Definition present {A : Type} (v : option A) : bool :=
  match v with
  | Some _ => true
  | None => false
  end.

(** [sub in s] for two strings: [sub] occurs somewhere in [s]; the empty
    string occurs in every string. *)
Definition contains (s sub : string) : bool :=
  present (String.index 0 sub s).

(** A dictionary literal whose key order matters, and [d.get(k)] on it. *)
Fixpoint dict_get {A : Type} (d : list (string * A)) (k : string)
  : option A :=
  match d with
  | [] => None
  | (k', v) :: d' => if decide (k' = k) then Some v else dict_get d' k
  end.

End Py.

(** ** config.py *)

Module Config.
Import Py.

Definition get_role_hierarchy : list string :=
  ["admin"; "profesor"; "estudiante"; "invitado"].

Definition can_manage_role (manager_role target_role : string) : result bool :=
  let hierarchy := get_role_hierarchy in
  except_
    (manager_level ← index hierarchy manager_role;
     target_level ← index hierarchy target_role;
     Ok (manager_level <? target_level)%nat)
    ValueError
    (Ok false).

(** [earlier m t]: both roles occur in the hierarchy list and [m] occurs at
    a strictly smaller position than [t]. *)
Definition earlier (m t : string) : Prop :=
  exists i j, get_role_hierarchy !! i = Some m /\
              get_role_hierarchy !! j = Some t /\ i < j.

(** An entry of [ROLES]. *)
Record role_info : Type := {
  name : string;
  description : string;
  permissions : list string
}.

Definition ROLES : list (string * role_info) :=
  [("admin",
    {| name := "Administrador";
       description := "Acceso completo al sistema";
       permissions := ["manage_users"; "manage_roles"; "manage_courses";
                       "manage_system"; "view_analytics"; "export_data";
                       "view_courses"; "manage_content"; "grade_assignments";
                       "view_grades"] |});
   ("profesor",
    {| name := "Profesor";
       description := "Gestión de cursos y estudiantes";
       permissions := ["manage_courses"; "view_courses"; "manage_content";
                       "grade_assignments"; "view_grades";
                       "manage_students_in_course"; "create_assignments";
                       "view_course_analytics"] |});
   ("estudiante",
    {| name := "Estudiante";
       description := "Acceso a cursos inscritos";
       permissions := ["view_courses"; "view_assignments";
                       "submit_assignments"; "view_grades";
                       "access_course_materials";
                       "participate_discussions"] |});
   ("invitado",
    {| name := "Invitado";
       description := "Acceso limitado";
       permissions := ["view_public_courses"; "view_public_materials"] |})].

(** The two lists of [UTEM_CONFIG] that the functions read. *)
Definition supported_email_domains : list string :=
  ["@utem.cl"; "@utem.ac.cl"; "@gmail.com"].

Definition admin_emails : list string :=
  ["admin@utem.cl"; "sistemas@utem.cl"; "canvas-admin@utem.cl"].

Definition check_role_permission (role permission : string) : bool :=
  match dict_get ROLES role with
  | None => false
  | Some info => bool_decide (permission ∈ permissions info)
  end.

Definition get_role_info (role : string) : option role_info :=
  dict_get ROLES role.

Definition get_user_permissions (role : string) : list string :=
  match get_role_info role with
  | Some role_info => permissions role_info
  | None => []
  end.

Definition is_utem_email (email : string) : bool :=
  existsb (fun domain => endswith email domain) supported_email_domains.

Definition is_admin_email (email : string) : bool :=
  bool_decide (email ∈ admin_emails).

Definition validate_role (role : string) : bool :=
  present (dict_get ROLES role).

Definition get_all_roles : list string := ROLES.*1.

Section DefaultRole.

(** [str.lower], kept abstract. *)
Variable lower : string -> string.

Definition get_default_role_for_email (email : string) : string :=
  if is_admin_email email then "admin"
  else if endswith email "@utem.cl" then
    if existsb (fun keyword => contains (lower email) keyword)
         ["prof"; "docente"; "academico"]
    then "profesor"
    else "estudiante"
  else if endswith email "@gmail.com" then "invitado"
  else "invitado".

End DefaultRole.

End Config.

(** ** auth.py *)

Module Auth.
Import Py.

Open Scope Z_scope.

(** *** Data *)

(** An entry of [users.json]: the keys the code reads or writes. A key that
    is absent from the dictionary is [None]. *)
Record profile : Type := {
  nombre : option string;
  rol : option string;
  facultad : option string;
  departamento : option string;
  permisos : option (list string);
  activo : option bool;
  fecha_creacion : option string;
  fecha_modificacion : option string
}.

(** Truth value of [st.session_state.user_data]: false for [None] and for
    the empty dictionary. *)
Definition dict_truthy (v : option profile) : bool :=
  match v with
  | None => false
  | Some p =>
      present (nombre p) || present (rol p) || present (facultad p)
      || present (departamento p) || present (permisos p)
      || present (activo p) || present (fecha_creacion p)
      || present (fecha_modificacion p)
  end.

(** A role of [config.json]. *)
Record role_def : Type := {
  role_nombre : string;
  nivel : Z;
  permisos_base : list string;
  acceso_completo : bool
}.

(** The configuration document; [load_config] leaves [{}] when the file
    cannot be read, so every key read with [.get] may be absent. *)
Record config_doc : Type := {
  roles : gmap string role_def;
  dominios_permitidos : option (list string);
  timeout_sesion : option Z;
  max_intentos_login : option Z;
  duracion_bloqueo : option Z
}.

(** A value of [self.login_attempts]. *)
Record attempts_info : Type := {
  attempts : Z;
  last_attempt : Z;
  locked_until : option Z
}.

(** [st.session_state]. *)
Record session_state : Type := {
  authenticated : bool;
  user : option string;
  user_data : option profile;
  login_time : option Z;
  last_activity : option Z
}.

(** The [AuthenticationSystem] object with the session it works on.
    [script_run] tells whether the code runs inside a Streamlit script run
    (the application started with [streamlit run]) or bare;
    [rerun_requested] records that [st.rerun()] asked for a rerun. *)
Record system : Type := {
  users_db : gmap string profile;
  config : config_doc;
  login_attempts : gmap (option string) attempts_info;
  max_attempts : Z;
  lockout_duration : Z;
  session : session_state;
  script_run : bool;
  rerun_requested : bool
}.

Definition set_login_attempts (la : gmap (option string) attempts_info)
  (s : system) : system :=
  {| users_db := users_db s; config := config s; login_attempts := la;
     max_attempts := max_attempts s; lockout_duration := lockout_duration s;
     session := session s; script_run := script_run s;
     rerun_requested := rerun_requested s |}.

Definition set_session (ss : session_state) (s : system) : system :=
  {| users_db := users_db s; config := config s;
     login_attempts := login_attempts s;
     max_attempts := max_attempts s; lockout_duration := lockout_duration s;
     session := ss; script_run := script_run s;
     rerun_requested := rerun_requested s |}.

Definition set_users_db (db : gmap string profile) (s : system) : system :=
  {| users_db := db; config := config s;
     login_attempts := login_attempts s;
     max_attempts := max_attempts s; lockout_duration := lockout_duration s;
     session := session s; script_run := script_run s;
     rerun_requested := rerun_requested s |}.

Definition set_rerun_requested (b : bool) (s : system) : system :=
  {| users_db := users_db s; config := config s;
     login_attempts := login_attempts s;
     max_attempts := max_attempts s; lockout_duration := lockout_duration s;
     session := session s; script_run := script_run s;
     rerun_requested := b |}.

Definition set_last_activity (t : option Z) (ss : session_state)
  : session_state :=
  {| authenticated := authenticated ss; user := user ss;
     user_data := user_data ss; login_time := login_time ss;
     last_activity := t |}.

(** *** Methods as state transformers that may raise *)

Definition M (A : Type) : Type := system -> system * result A.

Definition ret {A : Type} (a : A) : M A := fun s => (s, Ok a).
Definition bind {A B : Type} (m : M A) (k : A -> M B) : M B :=
  fun s =>
    match m s with
    | (s', Ok a) => k a s'
    | (s', Raise e) => (s', Raise e)
    end.
Definition gets {A : Type} (f : system -> A) : M A := fun s => (s, Ok (f s)).
Definition modify (f : system -> system) : M unit := fun s => (f s, Ok tt).
Definition lift {A : Type} (r : result A) : M A := fun s => (s, r).

(** [try: body except Exception: handler]: an exception that is not an
    [Exception] passes through; what [body] did to the state before raising
    stays. *)
Definition try_except {A : Type} (body : M A) (handler : exn -> M A) : M A :=
  fun s =>
    match body s with
    | (s', Ok a) => (s', Ok a)
    | (s', Raise e) => if is_Exception e then handler e s' else (s', Raise e)
    end.

Notation "'let*' x := m 'in' k" := (bind m (fun x => k))
  (at level 10, x pattern, m at level 100, k at level 200).
Notation "m ;;; k" := (bind m (fun _ => k))
  (at level 100, k at level 200, right associativity).

(** The record [{'attempts': 0, 'last_attempt': current_time,
    'locked_until': None}]. *)
Definition fresh_attempts (current_time : Z) : attempts_info :=
  {| attempts := 0; last_attempt := current_time; locked_until := None |}.

Definition check_rate_limit (email : option string) (current_time : Z)
  : M (bool * string) :=
  let* la := gets login_attempts in
  match la !! email with
  | Some attempts_info =>
      if num_and (locked_until attempts_info) (fun t => current_time <? t)
      then
        let remaining :=
          default 0 (locked_until attempts_info) - current_time in
        ret (false,
             "Cuenta bloqueada. Intente nuevamente en "
             ++ str_of_int remaining ++ " segundos.")
      else
        (if num_and (locked_until attempts_info) (fun t => current_time >=? t)
         then modify (set_login_attempts
                        (<[email := fresh_attempts current_time]> la))
         else ret tt) ;;;
        ret (true, "OK")
  | None =>
      modify (set_login_attempts
                (<[email := fresh_attempts current_time]> la)) ;;;
      ret (true, "OK")
  end.

(** The failure branch of [record_login_attempt] on the record of [email]. *)
Definition count_failure (max_attempts lockout_duration current_time : Z)
  (info : attempts_info) : attempts_info :=
  let n := attempts info + 1 in
  {| attempts := n;
     last_attempt := current_time;
     locked_until :=
       if n >=? max_attempts then Some (current_time + lockout_duration)
       else locked_until info |}.

Definition record_login_attempt (email : option string) (success : bool)
  (current_time : Z) : M unit :=
  let* la := gets login_attempts in
  (if negb (present (la !! email))
   then modify (set_login_attempts
                  (<[email := fresh_attempts current_time]> la))
   else ret tt) ;;;
  if negb success then
    let* max := gets max_attempts in
    let* lockout := gets lockout_duration in
    modify (fun s =>
      set_login_attempts
        (alter (count_failure max lockout current_time) email
               (login_attempts s)) s)
  else
    modify (fun s =>
      set_login_attempts
        (<[email := fresh_attempts current_time]> (login_attempts s)) s).

(** [email.endswith(domain)]; [email] may be [None], which has no such
    method. *)
Definition email_endswith (email : option string) (domain : string)
  : result bool :=
  match email with
  | Some e => Ok (endswith e domain)
  | None => Raise AttributeError
  end.

Fixpoint any_domain (email : option string) (domains : list string)
  : result bool :=
  match domains with
  | [] => Ok false
  | domain :: rest =>
      match email_endswith email domain with
      | Ok true => Ok true
      | Ok false => any_domain email rest
      | Raise e => Raise e
      end
  end.

Definition validate_domain (email : option string) : M bool :=
  let* cfg := gets config in
  lift (any_domain email (default [] (dominios_permitidos cfg))).

(** [email in self.users_db] and [self.users_db[email]]: the keys of the
    table are strings, so [None] is never found. *)
Definition lookup_user (db : gmap string profile) (email : option string)
  : option profile :=
  match email with
  | Some e => db !! e
  | None => None
  end.

(** [f"Bienvenido {user_data.get('nombre', email)}"]. *)
Definition greeting (user_data : profile) (email : option string) : string :=
  "Bienvenido "
  ++ match nombre user_data with
     | Some n => n
     | None => default "None" email
     end.

Definition login_body (email : option string) (now : Z) : M (bool * string) :=
  let* (allowed, message) := check_rate_limit email now in
  if negb allowed then ret (false, message)
  else
    let* domain_ok := validate_domain email in
    if negb domain_ok then
      record_login_attempt email false now ;;;
      ret (false, "Dominio de email no autorizado. Use su cuenta @utem.cl")
    else
      let* db := gets users_db in
      match lookup_user db email with
      | None =>
          record_login_attempt email false now ;;;
          ret (false,
               "Usuario no registrado en el sistema. Contacte al administrador.")
      | Some user_data =>
          if negb (default false (activo user_data)) then
            record_login_attempt email false now ;;;
            ret (false, "Usuario inactivo. Contacte al administrador.")
          else
            modify (set_session
                      {| authenticated := true;
                         user := email;
                         user_data := Some user_data;
                         login_time := Some now;
                         last_activity := Some now |}) ;;;
            record_login_attempt email true now ;;;
            ret (true, greeting user_data email)
      end.

Definition login (email : option string) (now : Z) : M (bool * string) :=
  try_except (login_body email now)
    (fun _ => ret (false, "Error en el proceso de autenticación")).

(** [st.rerun()]: inside a script run the rerun is requested and the script
    is halted by [RerunException], so the call does not return; outside a
    script run the call does nothing. *)
Definition st_rerun : M unit :=
  fun s =>
    if script_run s then (set_rerun_requested true s, Raise RerunException)
    else (s, Ok tt).

(** [logout]: the five session fields are cleared, then [st.rerun()]. *)
Definition cleared_session : session_state :=
  {| authenticated := false; user := None; user_data := None;
     login_time := None; last_activity := None |}.

Definition logout : M unit :=
  modify (set_session cleared_session) ;;;
  st_rerun.

Definition check_session_timeout (now : Z) : M bool :=
  let* ss := gets session in
  if authenticated ss && present (last_activity ss) then
    let* cfg := gets config in
    let timeout := default 3600 (timeout_sesion cfg) in
    let elapsed := now - default 0 (last_activity ss) in
    if elapsed >? timeout then
      logout ;;;
      ret false
    else
      modify (set_session (set_last_activity (Some now) ss)) ;;;
      ret true
  else ret true.

(** *** Authorization: reads of the session *)

Definition get_user_role (ss : session_state) : option string :=
  if authenticated ss && dict_truthy (user_data ss)
  then user_data ss ≫= rol
  else None.

Definition get_user_permissions (ss : session_state) : list string :=
  if authenticated ss && dict_truthy (user_data ss)
  then default [] (user_data ss ≫= permisos)
  else [].

Definition is_authorized (ss : session_state) (permission : string) : bool :=
  if negb (authenticated ss) then false
  else
    let user_role := get_user_role ss in
    if decide (user_role = Some "admin") then true
    else
      let user_permissions := get_user_permissions ss in
      bool_decide (permission ∈ user_permissions).

(** A [DataFrame] as far as [filter_data_by_role] looks at it: the column
    labels; the labels of the columns on which the [.str] accessor works (a
    column of strings, possibly with missing or other values between them),
    the accessor raising [AttributeError] on every other column; and the
    rows in order, a row giving the string it holds in a column (no entry:
    a missing value or a value that is not a string). *)
Record DataFrame : Type := {
  columns : list string;
  text_columns : list string;
  rows : list (gmap string string)
}.

Section Filter.

(** Python's [str.lower], applied to the departamento of the profile, and
    the element-wise lower-casing of pandas' [Series.str.lower], applied to
    the cells; both are kept abstract, and nothing makes them agree. *)
Variable lower : string -> string.
Variable series_lower : string -> string.

(** [data[data[column].str.lower() == value]] on a column the accessor
    accepts: the rows whose entry in [column], lower-cased by pandas, equals
    [value]; a cell without a string gives a missing value and compares
    unequal. *)
Definition select_rows (data : DataFrame) (column value : string)
  : DataFrame :=
  {| columns := columns data;
     text_columns := text_columns data;
     rows := filter (fun row => series_lower <$> row !! column = Some value)
                    (rows data) |}.

Definition filter_data_by_role (ss : session_state) (data : DataFrame)
  (department_column : string) : result (option DataFrame) :=
  if negb (authenticated ss) then Ok None
  else
    let user_role := get_user_role ss in
    if decide (user_role = Some "admin") then Ok (Some data)
    else
      match user_data ss with
      | None => Raise AttributeError
      | Some user_data =>
          if decide (facultad user_data = Some "todas") then Ok (Some data)
          else
            let user_dept := departamento user_data in
            if str_truthy user_dept
               && bool_decide (department_column ∈ columns data)
            then
              if bool_decide (department_column ∈ text_columns data)
              then Ok (Some (select_rows data department_column
                               (lower (default "" user_dept))))
              else Raise AttributeError
            else Ok (Some data)
      end.

End Filter.

(** *** User directory *)

Section Directory.

(** [str(e)], the text of an exception, kept abstract. *)
Variable str_exn : exn -> string.

Definition delete_user (email : string) : M (bool * string) :=
  try_except
    (let* db := gets users_db in
     if negb (present (db !! email)) then ret (false, "Usuario no existe")
     else if decide (email = "admin@utem.cl") then
       ret (false, "No se puede eliminar al administrador principal")
     else
       modify (set_users_db (delete email db)) ;;;
       ret (true, "Usuario eliminado exitosamente"))
    (fun e => ret (false, "Error al eliminar usuario: " ++ str_exn e)).

End Directory.

Section DirectoryWrites.

(** [str(e)], the text of an exception, kept abstract. *)
Variable str_exn : exn -> string.

(** [add_user] and [update_user] write into a dictionary in place, and a
    dictionary is seen through every name that holds it. The identities
    under which [users_db] holds the dictionary that is written are the
    argument [aliases] of the two methods, and [shared] tells whether
    [st.session_state.user_data] is that dictionary (as [login] leaves it
    for the dictionary of the identity logged in): the write is seen under
    each of them. *)
Definition write_aliases (aliases : list string) (written : profile)
  (db : gmap string profile) : gmap string profile :=
  foldr (fun k m => alter (fun _ => written) k m) db aliases.

Definition write_session (shared : bool) (written : profile) (s : system)
  : system :=
  if shared then
    set_session
      {| authenticated := authenticated (session s);
         user := user (session s);
         user_data := Some written;
         login_time := login_time (session s);
         last_activity := last_activity (session s) |} s
  else s.

(** [add_user]; [created] is [datetime.datetime.now().isoformat()]. The
    dictionary passed as [user_info] is stamped with its creation time and
    its [activo] key defaulted to [True], and is itself stored. *)
Definition stamp_new (created : string) (user_info : profile) : profile :=
  {| nombre := nombre user_info; rol := rol user_info;
     facultad := facultad user_info; departamento := departamento user_info;
     permisos := permisos user_info;
     activo := Some (default true (activo user_info));
     fecha_creacion := Some created;
     fecha_modificacion := fecha_modificacion user_info |}.

Definition add_user (aliases : list string) (shared : bool) (email : string)
  (user_info : profile) (created : string) : M (bool * string) :=
  try_except
    (let* db := gets users_db in
     if present (db !! email) then ret (false, "Usuario ya existe")
     else
       let* domain_ok := validate_domain (Some email) in
       if negb domain_ok then ret (false, "Dominio de email no válido")
       else
         let stamped := stamp_new created user_info in
         modify (fun s =>
           set_users_db (write_aliases aliases stamped (users_db s)) s) ;;;
         modify (write_session shared stamped) ;;;
         modify (fun s => set_users_db (<[email := stamped]> (users_db s)) s) ;;;
         ret (true, "Usuario agregado exitosamente"))
    (fun e => ret (false, "Error al agregar usuario: " ++ str_exn e)).

(** [for key, value in updates.items(): self.users_db[email][key] = value]
    followed by the modification stamp; [updates] holds the keys to write,
    an absent key leaving the stored value. *)
Definition apply_updates (updates : profile) (modified : string)
  (stored : profile) : profile :=
  let pick {A : Type} (new old : option A) : option A :=
    match new with
    | Some v => Some v
    | None => old
    end in
  {| nombre := pick (nombre updates) (nombre stored);
     rol := pick (rol updates) (rol stored);
     facultad := pick (facultad updates) (facultad stored);
     departamento := pick (departamento updates) (departamento stored);
     permisos := pick (permisos updates) (permisos stored);
     activo := pick (activo updates) (activo stored);
     fecha_creacion := pick (fecha_creacion updates) (fecha_creacion stored);
     fecha_modificacion := Some modified |}.

(** [update_user]; [modified] is [datetime.datetime.now().isoformat()]. The
    dictionary stored under [email] is changed in place. *)
Definition update_user (aliases : list string) (shared : bool)
  (email : string) (updates : profile) (modified : string)
  : M (bool * string) :=
  try_except
    (let* db := gets users_db in
     match db !! email with
     | None => ret (false, "Usuario no existe")
     | Some stored =>
         let updated := apply_updates updates modified stored in
         modify (fun s =>
           set_users_db
             (<[email := updated]> (write_aliases aliases updated (users_db s)))
             s) ;;;
         modify (write_session shared updated) ;;;
         ret (true, "Usuario actualizado exitosamente")
     end)
    (fun e => ret (false, "Error al actualizar usuario: " ++ str_exn e)).

End DirectoryWrites.

Definition get_all_users (s : system) : gmap string profile := users_db s.

Definition get_user_by_email (s : system) (email : option string)
  : option profile :=
  lookup_user (users_db s) email.

(** *** Module-level helpers *)

Definition get_current_user (ss : session_state) : option string :=
  if authenticated ss then user ss else None.

Definition get_current_user_data (ss : session_state) : option profile :=
  if authenticated ss then user_data ss else None.

Definition is_admin (ss : session_state) : result bool :=
  if authenticated ss then
    match user_data ss with
    | Some user_data => Ok (bool_decide (rol user_data = Some "admin"))
    | None => Raise AttributeError
    end
  else Ok false.

(** *** Defaults written by [create_default_config] and
    [create_default_users], and the settings of [__init__] *)

Definition default_config : config_doc :=
  {| roles :=
       <["admin" :=
           {| role_nombre := "Administrador"; nivel := 100;
              permisos_base := ["lectura"; "escritura"; "exportacion";
                                "admin"; "gestion"; "reportes"];
              acceso_completo := true |}]>
      (<["decano" :=
           {| role_nombre := "Decano"; nivel := 80;
              permisos_base := ["lectura"; "exportacion"; "reportes";
                                "gestion"];
              acceso_completo := false |}]>
      (<["director_informatica" :=
           {| role_nombre := "Director de Informática"; nivel := 70;
              permisos_base := ["lectura"; "exportacion"; "reportes"];
              acceso_completo := false |}]>
      (<["director_ciencias" :=
           {| role_nombre := "Director de Ciencias"; nivel := 70;
              permisos_base := ["lectura"; "exportacion"; "reportes"];
              acceso_completo := false |}]>
      (<["profesor" :=
           {| role_nombre := "Profesor"; nivel := 30;
              permisos_base := ["lectura"];
              acceso_completo := false |}]> ∅))));
     dominios_permitidos :=
       Some ["@utem.cl"; "@profesores.utem.cl"; "@alumnos.utem.cl"];
     timeout_sesion := Some 3600;
     max_intentos_login := Some 5;
     duracion_bloqueo := Some 300 |}.

Definition new_profile (created nombre rol facultad departamento : string)
  (permisos : list string) : profile :=
  {| nombre := Some nombre; rol := Some rol; facultad := Some facultad;
     departamento := Some departamento; permisos := Some permisos;
     activo := Some true; fecha_creacion := Some created;
     fecha_modificacion := None |}.

(** [created] is [datetime.datetime.now().isoformat()]. *)
Definition default_users (created : string) : gmap string profile :=
  <["admin@utem.cl" :=
      new_profile created "Administrador Sistema" "admin" "todas" "sistemas"
        ["lectura"; "escritura"; "exportacion"; "admin"]]>
  (<["victor.escobar@utem.cl" :=
      new_profile created "Victor Escobar" "director_informatica"
        "ingenieria" "informatica" ["lectura"; "exportacion"; "reportes"]]>
  (<["maria.garcia@utem.cl" :=
      new_profile created "María García" "director_ciencias" "ciencias"
        "ciencias" ["lectura"; "exportacion"; "reportes"]]>
  (<["juan.perez@utem.cl" :=
      new_profile created "Juan Pérez" "profesor" "ingenieria" "informatica"
        ["lectura"]]>
  (<["ana.torres@utem.cl" :=
      new_profile created "Ana Torres" "decano" "quimica" "quimica"
        ["lectura"; "exportacion"; "reportes"; "gestion"]]> ∅)))).

(** The session left by [init_session_state] on a new browser session. *)
Definition init_session_state : session_state := cleared_session.

(** The object built by [__init__] from the given tables, in a running
    Streamlit application. *)
Definition new_system (db : gmap string profile) (cfg : config_doc) : system :=
  {| users_db := db; config := cfg; login_attempts := ∅;
     max_attempts := 5; lockout_duration := 300;
     session := init_session_state; script_run := true;
     rerun_requested := false |}.

(** *** The specification's reading of the permission check *)

(** [has_permission] as the specification words it: false without an
    authenticated session, true when the role of the session has
    [acceso_completo], otherwise membership in the union of the role's
    [permisos_base] and the profile's own [permisos]. *)
Definition has_permission_spec (cfg : config_doc) (ss : session_state)
  (permission : string) : bool :=
  if negb (authenticated ss) then false
  else
    let role : option role_def :=
      match user_data ss ≫= rol with
      | Some r => roles cfg !! r
      | None => None
      end in
    if default false (acceso_completo <$> role) then true
    else
      bool_decide
        (permission ∈ (default [] (permisos_base <$> role)
                       ++ default [] (user_data ss ≫= permisos))%list).

End Auth.

(** ** Scenarios and vocabulary of the statements

    Concrete sessions, datasets and systems used as examples, and the
    notions the statements about [login] are phrased with. *)

Module Scenarios.
Import Py Auth.

(** A decano whose own permission list is shorter than the one of the role:
    an entry that [add_user] or [update_user] can write. *)
Definition decano_lectura : session_state :=
  {| authenticated := true;
     user := Some "d@utem.cl";
     user_data :=
       Some (new_profile "2025-01-01T00:00:00" "D" "decano" "quimica"
               "quimica" ["lectura"]);
     login_time := Some 1000;
     last_activity := Some 1000 |}.

(** The session of the default user admin@utem.cl. *)
Definition admin_session : session_state :=
  {| authenticated := true;
     user := Some "admin@utem.cl";
     user_data :=
       Some (new_profile "2025-01-01T00:00:00" "Administrador Sistema"
               "admin" "todas" "sistemas"
               ["lectura"; "escritura"; "exportacion"; "admin"]);
     login_time := Some 1000;
     last_activity := Some 1000 |}.

(** The session of the default user juan.perez@utem.cl. *)
Definition profesor_informatica : session_state :=
  {| authenticated := true;
     user := Some "juan.perez@utem.cl";
     user_data :=
       Some (new_profile "2025-01-01T00:00:00" "Juan Pérez" "profesor"
               "ingenieria" "informatica" ["lectura"]);
     login_time := Some 1000;
     last_activity := Some 1000 |}.

(** A dataset of courses with their department. *)
Definition course_row (curso departamento : string) : gmap string string :=
  <["curso" := curso]> (<["departamento" := departamento]> ∅).

Definition courses : DataFrame :=
  {| columns := ["curso"; "departamento"];
     text_columns := ["curso"; "departamento"];
     rows := [course_row "Algoritmos" "informatica";
              course_row "Organica" "quimica";
              course_row "Redes" "informatica"] |}.

(** A dataset that has no column named departamento. *)
Definition enrolments : DataFrame :=
  {| columns := ["curso"; "alumnos"];
     text_columns := ["curso"; "alumnos"];
     rows := [<["curso" := "Algoritmos"]> (<["alumnos" := "40"]> ∅);
              <["curso" := "Organica"]> (<["alumnos" := "25"]> ∅)] |}.

(** The default deployment with juan.perez logged in and last active at
    time [last]. *)
Definition idle_system (last : Z) : system :=
  set_session
    {| authenticated := true;
       user := Some "juan.perez@utem.cl";
       user_data := default_users "2025-01-01T00:00:00"
                      !! "juan.perez@utem.cl";
       login_time := Some 1000;
       last_activity := Some last |}
    (new_system (default_users "2025-01-01T00:00:00") default_config).

(** Gates 2 to 4 of [login] for a string identity: the domain is allowed,
    the identity is registered and its profile is active. *)
Definition credentials_ok (s : system) (email : string) : bool :=
  match any_domain (Some email)
          (default [] (dominios_permitidos (config s))) with
  | Ok true =>
      match users_db s !! email with
      | Some ud => default false (activo ud)
      | None => false
      end
  | _ => false
  end.

(** The messages of the three rejections that count as a failure. *)
Definition rejection_messages : list string :=
  ["Dominio de email no autorizado. Use su cuenta @utem.cl";
   "Usuario no registrado en el sistema. Contacte al administrador.";
   "Usuario inactivo. Contacte al administrador."].

(** The default deployment: the tables written by [create_default_users] and
    [create_default_config]. *)
Definition default_system : system :=
  new_system (default_users "2025-01-01T00:00:00") default_config.

(** The same with three failures already counted against juan.perez. *)
Definition three_failures : system :=
  set_login_attempts
    (<[Some "juan.perez@utem.cl" :=
         {| attempts := 3; last_attempt := 900; locked_until := None |}]> ∅)
    default_system.

(** [login] called once per time of the list, with the answers. *)
Fixpoint login_each (email : string) (times : list Z) (s : system)
  : system * list (result (bool * string)) :=
  match times with
  | [] => (s, [])
  | t :: rest =>
      let (s1, r) := login (Some email) t s in
      let (s2, rs) := login_each email rest s1 in
      (s2, r :: rs)
  end.

(** The record of [email] counts [n] failures and is not locked; an
    identity without a record counts none. *)
Definition counted (s : system) (email : string) (n : Z) : Prop :=
  match login_attempts s !! Some email with
  | Some info => attempts info = n /\ locked_until info = None
  | None => n = 0
  end.

(** What a failed login does not touch. *)
Definition same_env (s s' : system) : Prop :=
  users_db s' = users_db s /\ config s' = config s /\
  max_attempts s' = max_attempts s /\
  lockout_duration s' = lockout_duration s /\
  session s' = session s.

(** An answer of [login] that is one of these rejections. *)
Definition rejected (r : result (bool * string)) : Prop :=
  exists message, r = Ok (false, message) /\ message ∈ rejection_messages.

(** The directory of the default deployment with the identity
    nuevo@utem.cl registered and active. *)
Definition with_nuevo (s : system) : system :=
  set_users_db
    (<["nuevo@utem.cl" :=
         new_profile "2025-01-02T00:00:00" "Nuevo Usuario" "profesor"
           "ingenieria" "informatica" ["lectura"]]> (users_db s)) s.

(** A session that is marked authenticated carries an identity, a
    profile, a login time and a last activity time. *)
Definition session_wf (ss : session_state) : Prop :=
  authenticated ss = true ->
  is_Some (user ss) /\ is_Some (user_data ss) /\
  is_Some (login_time ss) /\ is_Some (last_activity ss).

(** The calls that act on the session. *)
Inductive call : Type :=
  | Login (email : option string) (now : Z)
  | Logout
  | CheckSessionTimeout (now : Z)
  | DeleteUser (email : string).

Definition run_call (c : call) (s : system) : system :=
  match c with
  | Login email now => fst (login email now s)
  | Logout => fst (logout s)
  | CheckSessionTimeout now => fst (check_session_timeout now s)
  | DeleteUser email => fst (delete_user (fun _ => "") email s)
  end.

Definition run_calls (cs : list call) (s : system) : system :=
  foldl (fun s c => run_call c s) s cs.

(** [login] called once per time of the list for an identity that may be
    [None], with the answers. *)
Fixpoint login_times (email : option string) (times : list Z) (s : system)
  : system * list (result (bool * string)) :=
  match times with
  | [] => (s, [])
  | t :: rest =>
      let (s1, r) := login email t s in
      let (s2, rs) := login_times email rest s1 in
      (s2, r :: rs)
  end.

(** The session that a successful [login] of [email] at [now] opens. *)
Definition opened_session (email : string) (ud : profile) (now : Z)
  : session_state :=
  {| authenticated := true; user := Some email; user_data := Some ud;
     login_time := Some now; last_activity := Some now |}.

(** The identity ends with one of the configured domains. *)
Definition domain_allowed (s : system) (email : string) : Prop :=
  exists d p, d ∈ default [] (dominios_permitidos (config s)) /\
              email = p ++ d.

(** The calls of the class that act on the directory or on the session. *)
Inductive admin_call : Type :=
  | Core (c : call)
  | AddUser (aliases : list string) (shared : bool) (email : string)
      (user_info : profile) (created : string)
  | UpdateUser (aliases : list string) (shared : bool) (email : string)
      (updates : profile) (modified : string).

Definition run_admin_call (c : admin_call) (s : system) : system :=
  match c with
  | Core c => run_call c s
  | AddUser aliases shared email user_info created =>
      fst (add_user (fun _ => "") aliases shared email user_info created s)
  | UpdateUser aliases shared email updates modified =>
      fst (update_user (fun _ => "") aliases shared email updates modified s)
  end.

Definition run_admin_calls (cs : list admin_call) (s : system) : system :=
  foldl (fun s c => run_admin_call c s) s cs.

(** A profile to add, without the keys that [add_user] writes. *)
Definition nueva_info : profile :=
  {| nombre := Some "Nueva Persona"; rol := Some "profesor";
     facultad := Some "ciencias"; departamento := Some "ciencias";
     permisos := Some ["lectura"]; activo := None;
     fecha_creacion := None; fecha_modificacion := None |}.

(** The keys to deactivate an account: only [activo]. *)
Definition deactivate : profile :=
  {| nombre := None; rol := None; facultad := None; departamento := None;
     permisos := None; activo := Some false; fecha_creacion := None;
     fecha_modificacion := None |}.

End Scenarios.

(** * Properties *)

(** ** Facts about the Python operations *)

Module PyFacts.
Import Py.

Lemma index_Ok l x i :
  index l x = Ok i -> l !! i = Some x /\ forall j, j < i -> l !! j <> Some x.
Proof.
  revert i. induction l as [|y l IH]; intros i; simpl; [discriminate|].
  destruct (decide (y = x)) as [->|Hne].
  - intros [= <-]. split; [reflexivity|]. intros j Hj. lia.
  - destruct (index l x) as [k|e] eqn:Hk; simpl; [|discriminate].
    intros [= <-]. destruct (IH k eq_refl) as [Hk1 Hk2].
    split; [exact Hk1|]. intros [|j] Hj; simpl.
    + intros [= ->]. congruence.
    + apply Hk2. lia.
Qed.

Lemma index_Raise l x e : index l x = Raise e -> e = ValueError /\ x ∉ l.
Proof.
  induction l as [|y l IH]; simpl.
  - intros [= <-]. split; [reflexivity|]. apply not_elem_of_nil.
  - destruct (decide (y = x)) as [->|Hne]; [discriminate|].
    destruct (index l x) as [k|e'] eqn:Hk; simpl; [discriminate|].
    intros [= <-]. destruct (IH eq_refl) as [-> Hnot].
    split; [reflexivity|]. rewrite elem_of_cons. intros [->|Hin]; tauto.
Qed.

Lemma index_NoDup l x i : NoDup l -> l !! i = Some x -> index l x = Ok i.
Proof.
  intros Hnd Hi. destruct (index l x) as [k|e] eqn:Hk.
  - apply index_Ok in Hk as [Hk _]. f_equal.
    exact (proj1 (NoDup_alt l) Hnd k i x Hk Hi).
  - apply index_Raise in Hk as [_ Hnot]. exfalso. apply Hnot.
    apply list_elem_of_lookup. eauto.
Qed.

Lemma length_append (p s : string) :
  String.length (p ++ s) = (String.length p + String.length s)%nat.
Proof. induction p as [|c p IH]; simpl; [reflexivity|]. now rewrite IH. Qed.

Lemma substring_whole (s : string) : substring 0 (String.length s) s = s.
Proof. induction s as [|c s IH]; simpl; [reflexivity|]. now rewrite IH. Qed.

Lemma substring_append (p s : string) :
  substring (String.length p) (String.length s) (p ++ s) = s.
Proof.
  induction p as [|c p IH]; simpl; [apply substring_whole|exact IH].
Qed.

Lemma substring_split (s : string) (k : nat) :
  (k <= String.length s)%nat ->
  substring 0 k s ++ substring k (String.length s - k) s = s.
Proof.
  revert k. induction s as [|c s IH]; intros k Hk; simpl in Hk.
  - assert (k = 0%nat) as -> by lia. reflexivity.
  - destruct k as [|k]; simpl.
    + now rewrite substring_whole.
    + change (String c (substring 0 k s
                        ++ substring k (String.length s - k) s)
              = String c s).
      f_equal. apply IH. lia.
Qed.

(** [endswith] is the suffix relation on strings. *)
Lemma endswith_spec (s suffix : string) :
  endswith s suffix = true <-> exists p, s = p ++ suffix.
Proof.
  unfold endswith. split.
  - destruct (Nat.leb_spec (String.length suffix) (String.length s))
      as [Hle|Hlt]; [|discriminate].
    intros Heq. apply String.eqb_eq in Heq.
    exists (substring 0 (String.length s - String.length suffix) s).
    pose proof (substring_split s (String.length s - String.length suffix))
      as Hs.
    replace (String.length s - (String.length s - String.length suffix))%nat
      with (String.length suffix) in Hs by lia.
    rewrite Heq in Hs. symmetry. apply Hs. lia.
  - intros [p ->]. rewrite length_append.
    rewrite (proj2 (Nat.leb_le _ _)) by lia.
    replace (String.length p + String.length suffix - String.length suffix)%nat
      with (String.length p) by lia.
    rewrite substring_append. apply String.eqb_refl.
Qed.

End PyFacts.

(** ** config.py: the role hierarchy *)

Module ConfigProps.
Import Py PyFacts Config.

Lemma hierarchy_NoDup : NoDup get_role_hierarchy.
Proof.
  unfold get_role_hierarchy.
  repeat (apply NoDup_cons; split;
          [rewrite ?elem_of_cons, elem_of_nil; intros H;
           repeat destruct H as [H|H]; solve [discriminate | contradiction]|]).
  apply NoDup_nil_2.
Qed.

Lemma can_manage_role_total m t : exists b, can_manage_role m t = Ok b.
Proof.
  unfold can_manage_role, except_. cbv zeta.
  generalize get_role_hierarchy as h. intros h.
  destruct (index h m) as [i|e] eqn:Hm; cbn.
  - destruct (index h t) as [j|e] eqn:Ht; cbn; [eauto|].
    apply index_Raise in Ht as [-> _]. rewrite decide_True by done. eauto.
  - apply index_Raise in Hm as [-> _]. rewrite decide_True by done. eauto.
Qed.

Lemma can_manage_role_true m t : can_manage_role m t = Ok true <-> earlier m t.
Proof.
  pose proof hierarchy_NoDup as Hnd. revert Hnd.
  unfold can_manage_role, except_, earlier. cbv zeta.
  generalize get_role_hierarchy as h. intros h Hnd. split.
  - destruct (index h m) as [i|e] eqn:Hm; cbn.
    + destruct (index h t) as [j|e] eqn:Ht; cbn.
      * intros [= Hlt]. apply Nat.ltb_lt in Hlt.
        apply index_Ok in Hm as [Hm _]. apply index_Ok in Ht as [Ht _].
        eauto.
      * apply index_Raise in Ht as [-> _]. rewrite decide_True by done.
        discriminate.
    + apply index_Raise in Hm as [-> _]. rewrite decide_True by done.
      discriminate.
  - intros (i & j & Hi & Hj & Hlt).
    rewrite (index_NoDup _ _ _ Hnd Hi). cbn.
    rewrite (index_NoDup _ _ _ Hnd Hj). cbn.
    f_equal. apply Nat.ltb_lt. exact Hlt.
Qed.

Lemma can_manage_role_outside m t :
  m ∉ get_role_hierarchy \/ t ∉ get_role_hierarchy ->
  can_manage_role m t = Ok false.
Proof.
  intros Hout. destruct (can_manage_role_total m t) as [[|] Hb]; [|exact Hb].
  exfalso. apply can_manage_role_true in Hb as (i & j & Hi & Hj & _).
  destruct Hout as [H|H]; apply H; apply list_elem_of_lookup; eauto.
Qed.

Lemma can_manage_role_irrefl r : can_manage_role r r = Ok false.
Proof.
  destruct (can_manage_role_total r r) as [[|] Hb]; [|exact Hb].
  exfalso. apply can_manage_role_true in Hb as (i & j & Hi & Hj & Hlt).
  pose proof (proj1 (NoDup_alt _) hierarchy_NoDup i j r Hi Hj). lia.
Qed.

Lemma earlier_pairs m t :
  earlier m t <->
  (m, t) ∈ [("admin", "profesor"); ("admin", "estudiante");
            ("admin", "invitado"); ("profesor", "estudiante");
            ("profesor", "invitado"); ("estudiante", "invitado")].
Proof.
  unfold earlier, get_role_hierarchy. rewrite !elem_of_cons, elem_of_nil.
  split.
  - intros (i & j & Hi & Hj & Hlt).
    destruct i as [|[|[|[|i]]]]; cbn in Hi; try discriminate Hi;
      injection Hi as <-;
      destruct j as [|[|[|[|j]]]]; cbn in Hj; try discriminate Hj;
      injection Hj as <-; try lia; tauto.
  - intros [H|[H|[H|[H|[H|[H|[]]]]]]]; injection H as -> ->.
    + exists 0, 1. cbn. repeat split; lia.
    + exists 0, 2. cbn. repeat split; lia.
    + exists 0, 3. cbn. repeat split; lia.
    + exists 1, 2. cbn. repeat split; lia.
    + exists 1, 3. cbn. repeat split; lia.
    + exists 2, 3. cbn. repeat split; lia.
Qed.

(** C10. The hierarchy list is admin, profesor, estudiante, invitado, in
    this order.  [can_manage_role] always returns, and returns true exactly
    when both roles occur in that list with the manager at a strictly
    smaller position than the target, that is for the six pairs admin over
    profesor, estudiante and invitado, profesor over estudiante and
    invitado, and estudiante over invitado; hence no role manages itself,
    and the answer is false as soon as one of the two roles is not one of
    the four. *)
Theorem can_manage_role_spec (manager_role target_role : string) :
  get_role_hierarchy = ["admin"; "profesor"; "estudiante"; "invitado"] /\
  (exists b, can_manage_role manager_role target_role = Ok b) /\
  (can_manage_role manager_role target_role = Ok true <->
   exists i j,
     ["admin"; "profesor"; "estudiante"; "invitado"] !! i = Some manager_role /\
     ["admin"; "profesor"; "estudiante"; "invitado"] !! j = Some target_role /\
     i < j) /\
  (can_manage_role manager_role target_role = Ok true <->
   (manager_role, target_role)
   ∈ [("admin", "profesor"); ("admin", "estudiante"); ("admin", "invitado");
      ("profesor", "estudiante"); ("profesor", "invitado");
      ("estudiante", "invitado")]) /\
  can_manage_role manager_role manager_role = Ok false /\
  (manager_role ∉ ["admin"; "profesor"; "estudiante"; "invitado"] \/
   target_role ∉ ["admin"; "profesor"; "estudiante"; "invitado"] ->
   can_manage_role manager_role target_role = Ok false).
Proof.
  split; [reflexivity|].
  split; [apply can_manage_role_total|].
  split; [exact (can_manage_role_true manager_role target_role)|].
  split; [rewrite can_manage_role_true; apply earlier_pairs|].
  split; [apply can_manage_role_irrefl|].
  exact (can_manage_role_outside manager_role target_role).
Qed.

(** The hierarchy on its four roles, by evaluation. *)
Example can_manage_role_table :
  can_manage_role "admin" "profesor" = Ok true /\
  can_manage_role "profesor" "invitado" = Ok true /\
  can_manage_role "estudiante" "profesor" = Ok false /\
  can_manage_role "invitado" "invitado" = Ok false /\
  can_manage_role "admin" "decano" = Ok false /\
  can_manage_role "decano" "invitado" = Ok false.
Proof. repeat split; reflexivity. Qed.

Lemma can_manage_role_spec_witness :
  can_manage_role "admin" "profesor" = Ok true /\
  can_manage_role "profesor" "admin" = Ok false /\
  ("decano" ∉ ["admin"; "profesor"; "estudiante"; "invitado"] \/
   "invitado" ∉ ["admin"; "profesor"; "estudiante"; "invitado"]) /\
  can_manage_role "decano" "invitado" = Ok false.
Proof.
  destruct (can_manage_role_spec "admin" "profesor")
    as (_ & _ & [_ Hpos] & _).
  destruct (can_manage_role_spec "profesor" "admin")
    as (_ & [b Hb] & _ & [Hneg _] & _).
  destruct (can_manage_role_spec "decano" "invitado")
    as (_ & _ & _ & _ & _ & Hout).
  assert (H : "decano" ∉ ["admin"; "profesor"; "estudiante"; "invitado"] \/
              "invitado" ∉ ["admin"; "profesor"; "estudiante"; "invitado"]).
  { left. rewrite !elem_of_cons, elem_of_nil.
    intros [H|[H|[H|[H|H]]]]; solve [discriminate | contradiction]. }
  split; [apply Hpos; exists 0, 1; cbn; repeat split; lia|].
  split; [|split; [exact H|exact (Hout H)]].
  destruct b; [|exact Hb].
  exfalso. apply Hneg in Hb. revert Hb.
  rewrite !elem_of_cons, elem_of_nil.
  intros [H'|[H'|[H'|[H'|[H'|[H'|[]]]]]]]; discriminate H'.
Defined.

End ConfigProps.

(** ** auth.py: authorization *)

Module AuthzProps.
Import Py PyFacts Auth Scenarios.

Lemma dict_truthy_false ud :
  dict_truthy (Some ud) = false -> rol ud = None /\ permisos ud = None.
Proof.
  destruct ud as [n r f d p a c m]; simpl.
  destruct n, r, f, d, p, a, c, m; simpl; intros H;
    solve [discriminate | split; reflexivity].
Qed.

Lemma get_user_role_eq ss ud :
  authenticated ss = true -> user_data ss = Some ud ->
  get_user_role ss = rol ud.
Proof.
  intros Hauth Hud. unfold get_user_role. rewrite Hauth, Hud.
  destruct (dict_truthy (Some ud)) eqn:Ht; simpl; [reflexivity|].
  symmetry. apply (dict_truthy_false ud Ht).
Qed.

Lemma get_user_permissions_eq ss ud :
  authenticated ss = true -> user_data ss = Some ud ->
  get_user_permissions ss = default [] (permisos ud).
Proof.
  intros Hauth Hud. unfold get_user_permissions. rewrite Hauth, Hud.
  destruct (dict_truthy (Some ud)) eqn:Ht; simpl; [reflexivity|].
  destruct (dict_truthy_false ud Ht) as [_ ->]. reflexivity.
Qed.

(** C1, as stated, fails: the role decano does not grant full access and
    its [permisos_base] holds "gestion", so the union of the specification
    grants it, yet [is_authorized] answers false for a decano whose own list
    is only "lectura". *)
Lemma is_authorized_ignores_permisos_base :
  authenticated decano_lectura = true /\
  (exists rd, roles default_config !! "decano" = Some rd /\
              acceso_completo rd = false /\
              "gestion" ∈ permisos_base rd) /\
  has_permission_spec default_config decano_lectura "gestion" = true /\
  is_authorized decano_lectura "gestion" = false.
Proof.
  split; [reflexivity|]. split.
  - eexists. split; [reflexivity|]. split; [reflexivity|].
    simpl. rewrite !elem_of_cons. tauto.
  - split; vm_compute; reflexivity.
Qed.

(** C1, amended. For an authenticated session whose role is not admin,
    [is_authorized] returns true exactly when the permission is in the
    [permisos] list of the profile held by the session (an absent list
    counting as empty); the [permisos_base] of the role plays no part. *)
Theorem is_authorized_iff_own_permission (ss : session_state) (ud : profile)
    (permission : string) :
  authenticated ss = true ->
  user_data ss = Some ud ->
  rol ud <> Some "admin" ->
  (is_authorized ss permission = true <->
   permission ∈ default [] (permisos ud)).
Proof.
  intros Hauth Hud Hrol. unfold is_authorized.
  rewrite (get_user_role_eq ss ud Hauth Hud).
  rewrite (get_user_permissions_eq ss ud Hauth Hud).
  rewrite Hauth. cbn [negb]. rewrite decide_False by exact Hrol.
  apply bool_decide_eq_true.
Qed.

Lemma is_authorized_iff_own_permission_witness :
  is_authorized decano_lectura "lectura" = true <->
  "lectura" ∈ ["lectura"].
Proof.
  apply (is_authorized_iff_own_permission decano_lectura
           (new_profile "2025-01-01T00:00:00" "D" "decano" "quimica"
              "quimica" ["lectura"]) "lectura").
  - reflexivity.
  - reflexivity.
  - simpl. discriminate.
Defined.

(** C2. For an authenticated session whose role is admin, [is_authorized]
    returns true whatever the permission string is, also for one that no
    role lists. *)
Theorem is_authorized_admin (ss : session_state) (ud : profile)
    (permission : string) :
  authenticated ss = true ->
  user_data ss = Some ud ->
  rol ud = Some "admin" ->
  is_authorized ss permission = true.
Proof.
  intros Hauth Hud Hrol. unfold is_authorized.
  rewrite (get_user_role_eq ss ud Hauth Hud), Hauth, Hrol. cbn [negb].
  rewrite decide_True by reflexivity. reflexivity.
Qed.

Lemma is_authorized_admin_witness :
  is_authorized admin_session "launch_rockets" = true.
Proof.
  apply (is_authorized_admin admin_session
           (new_profile "2025-01-01T00:00:00" "Administrador Sistema"
              "admin" "todas" "sistemas"
              ["lectura"; "escritura"; "exportacion"; "admin"])).
  - reflexivity.
  - reflexivity.
  - reflexivity.
Defined.

(** The permission asked in the witness is in no [permisos_base] of the
    default configuration. *)
Example launch_rockets_unlisted :
  forall r rd, roles default_config !! r = Some rd ->
               "launch_rockets" ∉ permisos_base rd.
Proof.
  intros r rd. unfold default_config; simpl.
  rewrite !lookup_insert. repeat case_decide; rewrite ?lookup_empty;
    intros [= <-]; simpl;
    rewrite ?elem_of_cons, elem_of_nil; intros Hin;
    repeat destruct Hin as [Hin|Hin]; solve [discriminate | contradiction].
Qed.

End AuthzProps.

(** ** auth.py: filtering a dataset by department *)

Module ScopeProps.
Import Py PyFacts Auth Scenarios AuthzProps.

Lemma select_rows_elem series_lower data column value
    (row : gmap string string) :
  row ∈ rows (select_rows series_lower data column value) <->
  row ∈ rows data /\ series_lower <$> row !! column = Some value.
Proof.
  unfold select_rows; simpl. rewrite list_elem_of_filter. tauto.
Qed.

Lemma select_rows_sublist series_lower data column value :
  rows (select_rows series_lower data column value) `sublist_of` rows data.
Proof. unfold select_rows; simpl. apply sublist_filter. Qed.

(** C8, as stated, fails: the session is authenticated, its role is not
    admin, neither its facultad nor its departamento is an all-units
    sentinel, and the dataset has no row whose departamento field equals
    informatica; the claimed result is the empty selection, but the code
    hands back both rows because the column is not in the dataset. *)
Lemma filter_data_by_role_missing_column :
  authenticated profesor_informatica = true /\
  get_user_role profesor_informatica = Some "profesor" /\
  filter_data_by_role ascii_lower ascii_lower profesor_informatica enrolments
    "departamento" = Ok (Some enrolments) /\
  rows (select_rows ascii_lower enrolments "departamento"
          (ascii_lower "informatica")) = [] /\
  filter_data_by_role ascii_lower ascii_lower profesor_informatica enrolments
    "departamento"
  <> Ok (Some (select_rows ascii_lower enrolments "departamento"
                 (ascii_lower "informatica"))).
Proof.
  split; [reflexivity|]. split; [reflexivity|].
  split; [vm_compute; reflexivity|].
  split; [vm_compute; reflexivity|].
  intros H.
  apply (f_equal (fun r => match r with
                           | Ok (Some d) => length (rows d)
                           | _ => 0%nat
                           end)) in H.
  vm_compute in H. discriminate H.
Qed.

(** C8, amended. For an authenticated session whose role is not admin and
    whose facultad is not "todas": when the profile has a non-empty
    departamento and the dataset has the scope column, and that column is
    one of strings, the result is the dataset restricted to the rows whose
    entry in that column, lower-cased by pandas, equals the departamento
    lower-cased by [str.lower], in their original order; when the scope
    column is there but is not one of strings, [AttributeError] is raised;
    when the departamento is absent or empty, or the dataset lacks the
    column, the dataset is returned as it is. *)
Theorem filter_data_by_role_scope (lower series_lower : string -> string)
    (ss : session_state) (ud : profile) (data : DataFrame)
    (department_column : string) :
  authenticated ss = true ->
  user_data ss = Some ud ->
  rol ud <> Some "admin" ->
  facultad ud <> Some "todas" ->
  (forall dept,
     departamento ud = Some dept -> dept <> "" ->
     department_column ∈ columns data ->
     department_column ∈ text_columns data ->
     exists out,
       filter_data_by_role lower series_lower ss data department_column
       = Ok (Some out) /\
       columns out = columns data /\
       text_columns out = text_columns data /\
       rows out = filter (fun row => series_lower <$> row !! department_column
                                     = Some (lower dept)) (rows data) /\
       rows out `sublist_of` rows data /\
       (forall row, row ∈ rows out <->
                    row ∈ rows data /\
                    series_lower <$> row !! department_column
                    = Some (lower dept)))
  /\
  (forall dept,
     departamento ud = Some dept -> dept <> "" ->
     department_column ∈ columns data ->
     department_column ∉ text_columns data ->
     filter_data_by_role lower series_lower ss data department_column
     = Raise AttributeError)
  /\
  (str_truthy (departamento ud) = false \/ department_column ∉ columns data ->
   filter_data_by_role lower series_lower ss data department_column
   = Ok (Some data)).
Proof.
  intros Hauth Hud Hrol Hfac.
  assert (Hstep :
    filter_data_by_role lower series_lower ss data department_column =
    if str_truthy (departamento ud)
       && bool_decide (department_column ∈ columns data)
    then
      if bool_decide (department_column ∈ text_columns data)
      then Ok (Some (select_rows series_lower data department_column
                       (lower (default "" (departamento ud)))))
      else Raise AttributeError
    else Ok (Some data)).
  { unfold filter_data_by_role.
    rewrite (get_user_role_eq ss ud Hauth Hud), Hauth, Hud. cbn [negb].
    rewrite decide_False by exact Hrol.
    rewrite decide_False by exact Hfac. reflexivity. }
  assert (Hon : forall dept,
    departamento ud = Some dept -> dept <> "" ->
    department_column ∈ columns data ->
    str_truthy (departamento ud)
    && bool_decide (department_column ∈ columns data) = true).
  { intros dept Hdept Hne Hcol. rewrite Hdept. simpl.
    destruct (String.eqb_spec dept "") as [->|_]; [congruence|]. simpl.
    apply bool_decide_eq_true_2, Hcol. }
  split; [|split].
  - intros dept Hdept Hne Hcol Htext.
    exists (select_rows series_lower data department_column (lower dept)).
    rewrite Hstep, (Hon dept Hdept Hne Hcol).
    rewrite bool_decide_eq_true_2 by exact Htext. rewrite Hdept. simpl.
    split; [reflexivity|]. split; [reflexivity|]. split; [reflexivity|].
    split; [reflexivity|].
    split; [apply select_rows_sublist|].
    intros row. apply select_rows_elem.
  - intros dept Hdept Hne Hcol Htext.
    rewrite Hstep, (Hon dept Hdept Hne Hcol).
    rewrite bool_decide_eq_false_2 by exact Htext. reflexivity.
  - intros Hno. rewrite Hstep. destruct Hno as [-> | Hcol]; [reflexivity|].
    rewrite bool_decide_eq_false_2 by exact Hcol.
    rewrite andb_false_r. reflexivity.
Qed.

(** The example of the specification: departamento informatica against the
    column values informatica, quimica, informatica keeps the first and the
    third row, in that order (on such text both lower-casings map the
    letters A to Z and nothing else). *)
Lemma filter_data_by_role_scope_witness :
  exists out,
    filter_data_by_role ascii_lower ascii_lower profesor_informatica courses
      "departamento" = Ok (Some out) /\
    columns out = columns courses /\
    rows out = [course_row "Algoritmos" "informatica";
                course_row "Redes" "informatica"].
Proof.
  destruct (filter_data_by_role_scope ascii_lower ascii_lower
              profesor_informatica
              (new_profile "2025-01-01T00:00:00" "Juan Pérez" "profesor"
                 "ingenieria" "informatica" ["lectura"])
              courses "departamento")
    as [Hsel _].
  - reflexivity.
  - reflexivity.
  - simpl. discriminate.
  - simpl. discriminate.
  - destruct (Hsel "informatica") as (out & Hout & Hcols & _ & Hrows & _).
    + reflexivity.
    + discriminate.
    + simpl. rewrite !elem_of_cons. tauto.
    + simpl. rewrite !elem_of_cons. tauto.
    + exists out. split; [exact Hout|]. split; [exact Hcols|].
      rewrite Hrows. vm_compute. reflexivity.
Defined.

(** The comparison ignores the case of ASCII letters on both sides. *)
Example filter_data_by_role_case :
  filter_data_by_role ascii_lower ascii_lower profesor_informatica
    {| columns := ["curso"; "departamento"];
       text_columns := ["curso"; "departamento"];
       rows := [course_row "Algoritmos" "Informatica";
                course_row "Organica" "QUIMICA";
                course_row "Redes" "INFORMATICA"] |}
    "departamento"
  = Ok (Some {| columns := ["curso"; "departamento"];
                text_columns := ["curso"; "departamento"];
                rows := [course_row "Algoritmos" "Informatica";
                         course_row "Redes" "INFORMATICA"] |}).
Proof. vm_compute. reflexivity. Qed.

(** An empty departamento switches the filter off as well. *)
Example filter_data_by_role_empty_departamento :
  filter_data_by_role ascii_lower ascii_lower
    {| authenticated := true;
       user := Some "x@utem.cl";
       user_data :=
         Some (new_profile "2025-01-01T00:00:00" "X" "profesor"
                 "ingenieria" "" ["lectura"]);
       login_time := Some 1000;
       last_activity := Some 1000 |}
    courses "departamento"
  = Ok (Some courses).
Proof. vm_compute. reflexivity. Qed.

(** A scope column of numbers stops the filter with the accessor's
    exception. *)
Example filter_data_by_role_numeric_column :
  filter_data_by_role ascii_lower ascii_lower profesor_informatica
    {| columns := ["curso"; "departamento"];
       text_columns := ["curso"];
       rows := [<["curso" := "Algoritmos"]> ∅; <["curso" := "Redes"]> ∅] |}
    "departamento"
  = Raise AttributeError.
Proof. vm_compute. reflexivity. Qed.

End ScopeProps.

(** ** auth.py: session timeout *)

Module SessionProps.
Import Py PyFacts Auth Scenarios.

Lemma logout_run s :
  logout s =
  if script_run s
  then (set_rerun_requested true (set_session cleared_session s),
        Raise RerunException)
  else (set_session cleared_session s, Ok tt).
Proof. unfold logout, bind, modify, st_rerun. cbn. reflexivity. Qed.

Lemma check_session_timeout_run s now la :
  authenticated (session s) = true ->
  last_activity (session s) = Some la ->
  check_session_timeout now s =
  if now - la >? default 3600 (timeout_sesion (config s))
  then
    if script_run s
    then (set_rerun_requested true (set_session cleared_session s),
          Raise RerunException)
    else (set_session cleared_session s, Ok false)
  else (set_session (set_last_activity (Some now) (session s)) s, Ok true).
Proof.
  intros Hauth Hla.
  unfold check_session_timeout, bind, gets. rewrite Hauth, Hla. simpl.
  destruct (now - la >? default 3600 (timeout_sesion (config s)));
    [|reflexivity].
  unfold logout, bind, modify, st_rerun. cbn.
  destruct (script_run s); reflexivity.
Qed.

(** C7. The claim fails on the expiry path of a running application. For an
    authenticated session with a last activity time: when the time elapsed
    exceeds the configured timeout (3600 s when the configuration has
    none), [check_session_timeout] clears the five session fields as
    [logout] does, but inside a Streamlit script run the [st.rerun()] that
    ends [logout] raises [RerunException], so the [return False] that
    follows is not reached and no value is returned; false is returned only
    outside a script run. Otherwise the last activity time is set to the
    current time, the rest of the session is left alone and true is
    returned. *)
Theorem check_session_timeout_expiry (s : system) (now la : Z) :
  authenticated (session s) = true ->
  last_activity (session s) = Some la ->
  let timeout := default 3600 (timeout_sesion (config s)) in
  (now - la > timeout ->
   session (fst (check_session_timeout now s)) =
     {| authenticated := false; user := None; user_data := None;
        login_time := None; last_activity := None |} /\
   (script_run s = true ->
    snd (check_session_timeout now s) = Raise RerunException) /\
   (script_run s = false ->
    snd (check_session_timeout now s) = Ok false)) /\
  (now - la <= timeout ->
   exists s',
     check_session_timeout now s = (s', Ok true) /\
     last_activity (session s') = Some now /\
     authenticated (session s') = true /\
     user (session s') = user (session s) /\
     user_data (session s') = user_data (session s) /\
     login_time (session s') = login_time (session s)).
Proof.
  intros Hauth Hla timeout.
  pose proof (check_session_timeout_run s now la Hauth Hla) as Hrun.
  fold timeout in Hrun. split.
  - intros H. rewrite Hrun.
    destruct (Z.gtb_spec (now - la) timeout); [|lia].
    destruct (script_run s); cbn.
    + split; [reflexivity|]. split; [reflexivity|discriminate].
    + split; [reflexivity|]. split; [discriminate|reflexivity].
  - intros H. rewrite Hrun.
    destruct (Z.gtb_spec (now - la) timeout); [lia|].
    eexists. split; [reflexivity|]. simpl.
    rewrite Hauth. repeat split; reflexivity.
Qed.

(** The failing input: a session last active 3601 s ago, timeout 3600 s, in
    a running application. The session is cleared and the call is left by
    the exception, not by [return False]. *)
Lemma check_session_timeout_expiry_witness :
  session (fst (check_session_timeout 10000 (idle_system 6399)))
  = cleared_session /\
  snd (check_session_timeout 10000 (idle_system 6399))
  = Raise RerunException /\
  snd (check_session_timeout 10000 (idle_system 6399)) <> Ok false.
Proof.
  destruct (proj1 (check_session_timeout_expiry (idle_system 6399) 10000 6399
                     eq_refl eq_refl))
    as (Hsess & Hrun & _).
  - vm_compute. reflexivity.
  - split; [exact Hsess|].
    rewrite (Hrun eq_refl). split; [reflexivity|discriminate].
Defined.

(** Exactly at the timeout the session is kept; one second later the
    running application is halted. *)
Example check_session_timeout_boundary :
  snd (check_session_timeout 10000 (idle_system 6400)) = Ok true /\
  snd (check_session_timeout 10001 (idle_system 6400))
  = Raise RerunException.
Proof. split; vm_compute; reflexivity. Qed.

(** Without an authenticated session nothing is done and the answer is
    true. *)
Example check_session_timeout_no_session :
  check_session_timeout 10000 default_system = (default_system, Ok true).
Proof. reflexivity. Qed.

End SessionProps.

(** ** auth.py: the user directory *)

Module DirectoryProps.
Import Py PyFacts Auth Scenarios.

(** C4, as stated, fails: on a directory without the identity, which is
    what [load_users] leaves when the file cannot be read, deleting
    admin@utem.cl is answered with the not-found message, not with the
    protected-entity one. *)
Lemma delete_user_admin_absent :
  delete_user (fun _ => "") "admin@utem.cl" (new_system ∅ default_config)
  = (new_system ∅ default_config, Ok (false, "Usuario no existe")).
Proof. reflexivity. Qed.

(** C4, amended. Deleting admin@utem.cl never changes the system and never
    succeeds; when the identity is in the directory the answer is the
    protected-entity message, and when it is not, the not-found message. *)
Theorem delete_user_admin (str_exn : exn -> string) (s : system) :
  exists message,
    delete_user str_exn "admin@utem.cl" s = (s, Ok (false, message)) /\
    (is_Some (users_db s !! "admin@utem.cl") ->
     message = "No se puede eliminar al administrador principal") /\
    (users_db s !! "admin@utem.cl" = None ->
     message = "Usuario no existe").
Proof.
  unfold delete_user, try_except, bind, gets, ret.
  destruct (users_db s !! "admin@utem.cl") as [ud|] eqn:Hdb; simpl.
  - eexists. split; [reflexivity|]. split; [reflexivity|discriminate].
  - eexists. split; [reflexivity|]. split; [|reflexivity].
    intros [x Hx]. discriminate Hx.
Qed.

Lemma delete_user_admin_witness :
  exists message,
    delete_user (fun _ => "") "admin@utem.cl"
      (new_system (default_users "2025-01-01T00:00:00") default_config)
    = (new_system (default_users "2025-01-01T00:00:00") default_config,
       Ok (false, message)) /\
    message = "No se puede eliminar al administrador principal".
Proof.
  destruct (delete_user_admin (fun _ => "")
              (new_system (default_users "2025-01-01T00:00:00")
                 default_config))
    as (message & Hrun & Hprot & _).
  exists message. split; [exact Hrun|].
  apply Hprot. eexists. vm_compute. reflexivity.
Defined.

(** Any other identity of the directory is removed. *)
Example delete_user_other :
  let s := new_system (default_users "2025-01-01T00:00:00") default_config in
  exists s',
    delete_user (fun _ => "") "juan.perez@utem.cl" s
    = (s', Ok (true, "Usuario eliminado exitosamente")) /\
    users_db s' !! "juan.perez@utem.cl" = None /\
    is_Some (users_db s' !! "admin@utem.cl").
Proof.
  eexists. split; [vm_compute; reflexivity|].
  split; [vm_compute; reflexivity|]. eexists. vm_compute. reflexivity.
Qed.

End DirectoryProps.

(** ** auth.py: the rate limiter *)

Module RateLimitProps.
Import Py PyFacts Auth Scenarios.

Lemma set_login_attempts_id s : set_login_attempts (login_attempts s) s = s.
Proof. destruct s; reflexivity. Qed.

Lemma check_rate_limit_absent s email now :
  login_attempts s !! email = None ->
  check_rate_limit email now s =
  (set_login_attempts (<[email := fresh_attempts now]> (login_attempts s)) s,
   Ok (true, "OK")).
Proof.
  intros H. unfold check_rate_limit, bind, gets. cbn. rewrite H. reflexivity.
Qed.

Lemma check_rate_limit_unlocked s email now info :
  login_attempts s !! email = Some info ->
  locked_until info = None ->
  check_rate_limit email now s = (s, Ok (true, "OK")).
Proof.
  intros H Hl. unfold check_rate_limit, bind, gets. cbn. rewrite H, Hl.
  reflexivity.
Qed.

Lemma check_rate_limit_locked s email now info t :
  login_attempts s !! email = Some info ->
  locked_until info = Some t ->
  t <> 0 -> now < t ->
  check_rate_limit email now s =
  (s, Ok (false, "Cuenta bloqueada. Intente nuevamente en "
                 ++ str_of_int (t - now) ++ " segundos.")).
Proof.
  intros H Hl Ht Hlt. unfold check_rate_limit, bind, gets. cbn.
  rewrite H, Hl. unfold num_and.
  rewrite (proj2 (Z.eqb_neq t 0) Ht), (proj2 (Z.ltb_lt now t) Hlt).
  reflexivity.
Qed.

Lemma check_rate_limit_expired s email now info t :
  login_attempts s !! email = Some info ->
  locked_until info = Some t ->
  t <> 0 -> t <= now ->
  check_rate_limit email now s =
  (set_login_attempts (<[email := fresh_attempts now]> (login_attempts s)) s,
   Ok (true, "OK")).
Proof.
  intros H Hl Ht Hle. unfold check_rate_limit, bind, gets. cbn.
  rewrite H, Hl. unfold num_and.
  rewrite (proj2 (Z.eqb_neq t 0) Ht).
  rewrite (proj2 (Z.ltb_ge now t) Hle).
  rewrite (proj2 (Z.geb_le now t) Hle). reflexivity.
Qed.

(** [check_rate_limit] never raises and touches nothing but the table of
    attempts. *)
Lemma check_rate_limit_frame s email now :
  exists la allowed message,
    check_rate_limit email now s
    = (set_login_attempts la s, Ok (allowed, message)).
Proof.
  unfold check_rate_limit, bind, gets. cbn.
  destruct (login_attempts s !! email) as [info|].
  - destruct (num_and (locked_until info) (fun t => now <? t)).
    + exists (login_attempts s). rewrite set_login_attempts_id. eauto.
    + destruct (num_and (locked_until info) (fun t => now >=? t)); cbn.
      * eauto.
      * exists (login_attempts s). rewrite set_login_attempts_id. eauto.
  - cbn. eauto.
Qed.

Lemma record_login_attempt_failure s email now :
  record_login_attempt email false now s =
  (set_login_attempts
     (alter (count_failure (max_attempts s) (lockout_duration s) now) email
        (match login_attempts s !! email with
         | Some _ => login_attempts s
         | None => <[email := fresh_attempts now]> (login_attempts s)
         end)) s,
   Ok tt).
Proof.
  unfold record_login_attempt, bind, gets, modify, ret. cbn.
  destruct (login_attempts s !! email); reflexivity.
Qed.

Lemma record_login_attempt_success s email now :
  exists la,
    record_login_attempt email true now s =
    (set_login_attempts (<[email := fresh_attempts now]> la) s, Ok tt).
Proof.
  unfold record_login_attempt, bind, gets, modify, ret. cbn.
  destruct (login_attempts s !! email); cbn; eauto.
Qed.

End RateLimitProps.

(** ** auth.py: login *)

Module LoginProps.
Import Py PyFacts Auth Scenarios RateLimitProps.

#[local] Arguments record_login_attempt : simpl never.
#[local] Arguments check_rate_limit : simpl never.

Lemma any_domain_Some e domains :
  any_domain (Some e) domains = Ok (existsb (endswith e) domains).
Proof.
  induction domains as [|d ds IH]; simpl; [reflexivity|].
  destruct (endswith e d); simpl; [reflexivity|exact IH].
Qed.

Lemma any_domain_no_suffix e domains :
  (forall d, d ∈ domains -> ~ exists p, e = p ++ d) ->
  any_domain (Some e) domains = Ok false.
Proof.
  intros Hno. rewrite any_domain_Some. f_equal.
  apply not_true_is_false. intros Hex.
  apply existsb_exists in Hex as (d & Hin & Hend).
  apply (Hno d); [apply list_elem_of_In; exact Hin|].
  apply endswith_spec. exact Hend.
Qed.

Lemma any_domain_Raise email domains e :
  any_domain email domains = Raise e -> e = AttributeError.
Proof.
  induction domains as [|d ds IH]; simpl; [discriminate|].
  destruct email as [addr|]; simpl.
  - destruct (endswith addr d); [discriminate|exact IH].
  - intros [= <-]. reflexivity.
Qed.

Lemma validate_domain_run s email :
  validate_domain email s
  = (s, any_domain email (default [] (dominios_permitidos (config s)))).
Proof. reflexivity. Qed.

(** A login that passes the rate limiter with bad credentials is rejected
    and counted as a failure. *)
Lemma login_rejected s la e now m :
  check_rate_limit (Some e) now s = (set_login_attempts la s, Ok (true, m)) ->
  credentials_ok s e = false ->
  exists message,
    login (Some e) now s =
    (fst (record_login_attempt (Some e) false now (set_login_attempts la s)),
     Ok (false, message)) /\
    message ∈ rejection_messages.
Proof.
  intros Hcheck Hbad.
  unfold login, try_except, login_body, bind. rewrite Hcheck. cbn.
  unfold credentials_ok in Hbad. rewrite any_domain_Some in *. cbn.
  unfold rejection_messages.
  destruct (existsb (endswith e) (default [] (dominios_permitidos (config s)))).
  - cbn. destruct (users_db s !! e) as [ud|] eqn:Hdb; cbn.
    + cbn in Hbad. rewrite Hbad. cbn.
      rewrite record_login_attempt_failure. cbn.
      eexists. split; [reflexivity|]. rewrite !elem_of_cons. tauto.
    + rewrite record_login_attempt_failure. cbn.
      eexists. split; [reflexivity|]. rewrite !elem_of_cons. tauto.
  - cbn. rewrite record_login_attempt_failure. cbn.
    eexists. split; [reflexivity|]. rewrite !elem_of_cons. tauto.
Qed.

(** A login that passes the rate limiter with good credentials opens the
    session and records a success. *)
Lemma login_accepted s la e now m :
  check_rate_limit (Some e) now s = (set_login_attempts la s, Ok (true, m)) ->
  credentials_ok s e = true ->
  exists ud,
    users_db s !! e = Some ud /\
    login (Some e) now s =
    (fst (record_login_attempt (Some e) true now
            (set_session
               {| authenticated := true; user := Some e;
                  user_data := Some ud; login_time := Some now;
                  last_activity := Some now |}
               (set_login_attempts la s))),
     Ok (true, greeting ud (Some e))).
Proof.
  intros Hcheck Hok.
  unfold login, try_except, login_body, bind. rewrite Hcheck. cbn.
  unfold credentials_ok in Hok. rewrite any_domain_Some in *. cbn.
  destruct (existsb (endswith e) (default [] (dominios_permitidos (config s))));
    [|discriminate].
  cbn. destruct (users_db s !! e) as [ud|] eqn:Hdb; [|discriminate].
  exists ud. split; [reflexivity|]. cbn. rewrite Hok. cbn.
  destruct (record_login_attempt_success
              (set_session
                 {| authenticated := true; user := Some e;
                    user_data := Some ud; login_time := Some now;
                    last_activity := Some now |}
                 (set_login_attempts la s)) (Some e) now) as [la' Hrec].
  rewrite Hrec. reflexivity.
Qed.

Lemma record_success_lookup s email now :
  login_attempts (fst (record_login_attempt email true now s)) !! email
  = Some (fresh_attempts now).
Proof.
  destruct (record_login_attempt_success s email now) as [la ->]. cbn.
  apply lookup_insert_eq.
Qed.

(** The four ways through [login] on the default deployment. *)
Example login_paths :
  snd (login (Some "juan.perez@utem.cl") 1000 default_system)
  = Ok (true, "Bienvenido Juan Pérez") /\
  session (fst (login (Some "juan.perez@utem.cl") 1000 default_system))
  = {| authenticated := true;
       user := Some "juan.perez@utem.cl";
       user_data := default_users "2025-01-01T00:00:00"
                      !! "juan.perez@utem.cl";
       login_time := Some 1000;
       last_activity := Some 1000 |} /\
  snd (login (Some "nadie@utem.cl") 1000 default_system)
  = Ok (false,
        "Usuario no registrado en el sistema. Contacte al administrador.") /\
  snd (login (Some "eve@gmail.com") 1000 default_system)
  = Ok (false, "Dominio de email no autorizado. Use su cuenta @utem.cl") /\
  snd (login (Some "juan.perez@utem.cl") 1000
         (set_users_db
            (<["juan.perez@utem.cl" :=
                 {| nombre := Some "Juan Pérez"; rol := Some "profesor";
                    facultad := Some "ingenieria";
                    departamento := Some "informatica";
                    permisos := Some ["lectura"]; activo := Some false;
                    fecha_creacion := Some "2025-01-01T00:00:00";
                    fecha_modificacion := None |}]>
               (users_db default_system))
            default_system))
  = Ok (false, "Usuario inactivo. Contacte al administrador.").
Proof. repeat split; vm_compute; reflexivity. Qed.

(** C5. [login] returns a pair (success, message) for every identity, the
    [None] identity included, and every state: it never raises. When a step
    of the login sequence raises, the pair is (false, the generic
    authentication-process-error message), and the state is the one reached
    when the fault occurred. *)
Theorem login_never_raises (s : system) (email : option string) (now : Z) :
  exists s' success message,
    login email now s = (s', Ok (success, message)) /\
    (forall e, snd (login_body email now s) = Raise e ->
               s' = fst (login_body email now s) /\
               success = false /\
               message = "Error en el proceso de autenticación").
Proof.
  assert (Hexn : forall e, snd (login_body email now s) = Raise e ->
                           e = AttributeError).
  { intros e. unfold login_body, bind.
    destruct (check_rate_limit_frame s email now)
      as (la & allowed & m & ->). cbn.
    destruct allowed; cbn; [|discriminate].
    destruct (any_domain email (default [] (dominios_permitidos (config s))))
      as [[|]|e'] eqn:Hdom; cbn.
    - destruct (lookup_user (users_db s) email) as [ud|]; cbn.
      + destruct (default false (activo ud)); cbn.
        * match goal with
          | |- context [record_login_attempt email true now ?s2] =>
              destruct (record_login_attempt_success s2 email now)
                as [la' ->]
          end.
          discriminate.
        * rewrite record_login_attempt_failure. discriminate.
      + rewrite record_login_attempt_failure. discriminate.
    - rewrite record_login_attempt_failure. discriminate.
    - intros [= <-]. exact (any_domain_Raise _ _ _ Hdom). }
  unfold login, try_except.
  destruct (login_body email now s) as [s1 [[success message]|e]]; cbn.
  - exists s1, success, message. split; [reflexivity|]. intros e [=].
  - rewrite (Hexn e eq_refl). cbn.
    exists s1, false, "Error en el proceso de autenticación".
    split; [reflexivity|]. intros e' _. repeat split; reflexivity.
Qed.

(** [login()] without an identity faults on [None.endswith] and is answered
    with the generic message. *)
Lemma login_never_raises_witness :
  snd (login_body None 1000 default_system) = Raise AttributeError /\
  snd (login None 1000 default_system)
  = Ok (false, "Error en el proceso de autenticación").
Proof.
  assert (Hfault : snd (login_body None 1000 default_system)
                   = Raise AttributeError) by (vm_compute; reflexivity).
  split; [exact Hfault|].
  destruct (login_never_raises default_system None 1000)
    as (s' & success & message & Hrun & Hcatch).
  destruct (Hcatch AttributeError Hfault) as (_ & -> & ->).
  rewrite Hrun. reflexivity.
Defined.

(** C6. For an identity string that ends with none of the configured
    domains, [validate_domain] returns false, and a [login] that the rate
    limiter lets through is rejected with the domain-not-authorized message
    and leaves the user directory as it was. *)
Theorem login_domain_rejected (s : system) (email : string) (now : Z) :
  (forall d, d ∈ default [] (dominios_permitidos (config s)) ->
             ~ exists p, email = p ++ d) ->
  validate_domain (Some email) s = (s, Ok false) /\
  (forall s1 m,
     check_rate_limit (Some email) now s = (s1, Ok (true, m)) ->
     exists s',
       login (Some email) now s =
       (s', Ok (false,
                "Dominio de email no autorizado. Use su cuenta @utem.cl")) /\
       users_db s' = users_db s).
Proof.
  intros Hno. pose proof (any_domain_no_suffix email _ Hno) as Hdom.
  split.
  - rewrite validate_domain_run, Hdom. reflexivity.
  - intros s1 m Hcheck.
    destruct (check_rate_limit_frame s (Some email) now)
      as (la & allowed & m' & Hframe).
    rewrite Hframe in Hcheck. injection Hcheck as <- -> ->.
    unfold login, try_except, login_body, bind. rewrite Hframe. cbn.
    rewrite Hdom. cbn. rewrite record_login_attempt_failure. cbn.
    eexists. split; reflexivity.
Qed.

Lemma login_domain_rejected_witness :
  validate_domain (Some "eve@gmail.com") default_system
  = (default_system, Ok false) /\
  exists s',
    login (Some "eve@gmail.com") 1000 default_system =
    (s', Ok (false,
             "Dominio de email no autorizado. Use su cuenta @utem.cl")) /\
    users_db s' = users_db default_system.
Proof.
  destruct (login_domain_rejected default_system "eve@gmail.com" 1000)
    as [Hval Hlogin].
  - intros d Hd Hsuf. apply endswith_spec in Hsuf.
    cbn in Hd. rewrite !elem_of_cons, elem_of_nil in Hd.
    destruct Hd as [->|[->|[->|[]]]]; vm_compute in Hsuf; discriminate Hsuf.
  - split; [exact Hval|].
    eapply Hlogin. vm_compute. reflexivity.
Defined.

(** C9. Whatever the attempt record of an identity held before, recording a
    success leaves it with a failed count of 0 and no lockout time; and
    every [login] that returns success has recorded one. *)
Theorem success_resets_attempts (s : system) (email : option string)
    (now : Z) :
  (exists info,
     login_attempts (fst (record_login_attempt email true now s)) !! email
     = Some info /\
     attempts info = 0 /\ locked_until info = None) /\
  (forall s' message,
     login email now s = (s', Ok (true, message)) ->
     exists info,
       login_attempts s' !! email = Some info /\
       attempts info = 0 /\ locked_until info = None).
Proof.
  split.
  - exists (fresh_attempts now).
    split; [apply record_success_lookup|split; reflexivity].
  - intros s' message.
    destruct (check_rate_limit_frame s email now)
      as (la & allowed & m & Hframe).
    unfold login, try_except, login_body, bind. rewrite Hframe. cbn.
    destruct allowed; cbn; [|intros [=]].
    destruct (any_domain email (default [] (dominios_permitidos (config s))))
      as [[|]|e] eqn:Hdom; cbn;
      [| |rewrite (any_domain_Raise _ _ _ Hdom); cbn].
    + destruct (lookup_user (users_db s) email) as [ud|]; cbn.
      * destruct (default false (activo ud)); cbn.
        -- match goal with
           | |- context [record_login_attempt email true now ?s2] =>
               pose proof (record_success_lookup s2 email now) as Hfresh;
               destruct (record_login_attempt_success s2 email now)
                 as [la' Hrec]
           end.
           rewrite Hrec in *. cbn in *. intros [= <- _].
           exists (fresh_attempts now). cbn.
           split; [exact Hfresh|split; reflexivity].
        -- rewrite record_login_attempt_failure. cbn. intros [=].
      * rewrite record_login_attempt_failure. cbn. intros [=].
    + rewrite record_login_attempt_failure. cbn. intros [=].
    + intros [=].
Qed.

Lemma success_resets_attempts_witness :
  login_attempts three_failures !! Some "juan.perez@utem.cl"
  = Some {| attempts := 3; last_attempt := 900; locked_until := None |} /\
  exists s' info,
    login (Some "juan.perez@utem.cl") 1000 three_failures
    = (s', Ok (true, "Bienvenido Juan Pérez")) /\
    login_attempts s' !! Some "juan.perez@utem.cl" = Some info /\
    attempts info = 0 /\ locked_until info = None.
Proof.
  split; [vm_compute; reflexivity|].
  destruct (login (Some "juan.perez@utem.cl") 1000 three_failures)
    as [s' r] eqn:Hrun.
  assert (Hr : r = Ok (true, "Bienvenido Juan Pérez")).
  { apply (f_equal snd) in Hrun. cbn [snd] in Hrun. rewrite <- Hrun.
    vm_compute. reflexivity. }
  subst r.
  destruct (proj2 (success_resets_attempts three_failures
                     (Some "juan.perez@utem.cl") 1000) s' _ Hrun)
    as (info & Hinfo & Hzero & Hnone).
  exists s', info. repeat split; assumption.
Defined.

Lemma same_env_refl s : same_env s s.
Proof. repeat split. Qed.

Lemma same_env_trans s1 s2 s3 :
  same_env s1 s2 -> same_env s2 s3 -> same_env s1 s3.
Proof.
  unfold same_env. intros (?&?&?&?&?) (?&?&?&?&?).
  repeat split; congruence.
Qed.

Lemma credentials_ok_env s s' e :
  same_env s s' -> credentials_ok s' e = credentials_ok s e.
Proof.
  intros (Hdb & Hcfg & _). unfold credentials_ok. now rewrite Hdb, Hcfg.
Qed.

(** One failed login on an unlocked record: the failure is counted, and
    the record is locked exactly when the count reaches [max_attempts]. *)
Lemma login_failure_step s e t n :
  counted s e n ->
  credentials_ok s e = false ->
  exists s' r info,
    login (Some e) t s = (s', r) /\ rejected r /\ same_env s s' /\
    login_attempts s' !! Some e = Some info /\
    attempts info = n + 1 /\
    locked_until info =
      (if n + 1 >=? max_attempts s then Some (t + lockout_duration s)
       else None).
Proof.
  intros Hcount Hbad. unfold counted in Hcount.
  destruct (login_attempts s !! Some e) as [info|] eqn:Hla.
  - destruct Hcount as [Hn Hnone].
    pose proof (check_rate_limit_unlocked s (Some e) t info Hla Hnone)
      as Hcheck.
    rewrite <- (set_login_attempts_id s) in Hcheck at 2.
    destruct (login_rejected s _ e t _ Hcheck Hbad) as (m & Hrun & Hm).
    rewrite set_login_attempts_id in Hrun.
    rewrite record_login_attempt_failure, Hla in Hrun. cbn [fst] in Hrun.
    eexists _, _, _. split; [exact Hrun|].
    split; [exists m; split; [reflexivity|exact Hm]|].
    split; [repeat split|].
    cbn. rewrite lookup_alter_eq, Hla. cbn.
    split; [reflexivity|]. unfold count_failure; cbn.
    rewrite Hn, Hnone. split; reflexivity.
  - subst n.
    pose proof (check_rate_limit_absent s (Some e) t Hla) as Hcheck.
    destruct (login_rejected s _ e t _ Hcheck Hbad) as (m & Hrun & Hm).
    rewrite record_login_attempt_failure in Hrun. cbn in Hrun.
    rewrite lookup_insert_eq in Hrun.
    eexists _, _, _. split; [exact Hrun|].
    split; [exists m; split; [reflexivity|exact Hm]|].
    split; [repeat split|].
    cbn. rewrite lookup_alter_eq, lookup_insert_eq. cbn.
    split; [reflexivity|]. split; reflexivity.
Qed.

(** Failures below the maximum only count. *)
Lemma login_each_counts e times : forall s n,
  counted s e n ->
  credentials_ok s e = false ->
  n + Z.of_nat (length times) < max_attempts s ->
  exists s' results,
    login_each e times s = (s', results) /\
    Forall rejected results /\ same_env s s' /\
    counted s' e (n + Z.of_nat (length times)).
Proof.
  induction times as [|t rest IH]; intros s n Hcount Hbad Hlt.
  - exists s, []. cbn. rewrite Z.add_0_r.
    repeat split; [constructor|exact Hcount].
  - cbn [length] in Hlt. rewrite Nat2Z.inj_succ in Hlt.
    destruct (login_failure_step s e t n Hcount Hbad)
      as (s1 & r & info & Hrun & Hrej & Henv & Hla & Hatt & Hlock).
    assert (Hc1 : counted s1 e (n + 1)).
    { unfold counted. rewrite Hla. split; [exact Hatt|].
      rewrite Hlock. destruct (Z.geb_spec (n + 1) (max_attempts s));
        [lia|reflexivity]. }
    destruct (IH s1 (n + 1) Hc1) as (s2 & rs & Hrest & Hall & Henv2 & Hc2).
    + rewrite (credentials_ok_env s s1 e Henv). exact Hbad.
    + destruct Henv as (_ & _ & -> & _). lia.
    + exists s2, (r :: rs). cbn [login_each]. rewrite Hrun, Hrest.
      split; [reflexivity|]. split; [constructor; assumption|].
      split; [exact (same_env_trans _ _ _ Henv Henv2)|].
      cbn [length]. rewrite Nat2Z.inj_succ.
      replace (n + Z.succ (Z.of_nat (length rest)))
        with (n + 1 + Z.of_nat (length rest)) by lia.
      exact Hc2.
Qed.

Lemma login_each_app e ts1 ts2 s :
  login_each e (ts1 ++ ts2) s =
  let (s1, rs1) := login_each e ts1 s in
  let (s2, rs2) := login_each e ts2 s1 in
  (s2, (rs1 ++ rs2)%list).
Proof.
  revert s. induction ts1 as [|t ts1 IH]; intros s; cbn [login_each app].
  - destruct (login_each e ts2 s) as [s2 rs2]. reflexivity.
  - destruct (login (Some e) t s) as [s1 r]. rewrite IH.
    destruct (login_each e ts1 s1) as [s1' rs1].
    destruct (login_each e ts2 s1') as [s2 rs2]. reflexivity.
Qed.

(** While the lockout lasts, [login] stops at the rate limiter, before any
    look at the credentials. *)
Lemma login_locked s e now info t :
  login_attempts s !! Some e = Some info ->
  locked_until info = Some t ->
  t <> 0 -> now < t ->
  login (Some e) now s =
  (s, Ok (false, "Cuenta bloqueada. Intente nuevamente en "
                 ++ str_of_int (t - now) ++ " segundos.")).
Proof.
  intros Hla Hlock Ht Hlt. unfold login, try_except, login_body, bind.
  rewrite (check_rate_limit_locked s (Some e) now info t Hla Hlock Ht Hlt).
  reflexivity.
Qed.

(** Once the lockout time is reached, good credentials log in and the
    record starts afresh. *)
Lemma login_after_lockout s e now info t :
  login_attempts s !! Some e = Some info ->
  locked_until info = Some t ->
  t <> 0 -> t <= now ->
  credentials_ok s e = true ->
  exists s' ud,
    users_db s !! e = Some ud /\
    login (Some e) now s = (s', Ok (true, greeting ud (Some e))) /\
    login_attempts s' !! Some e = Some (fresh_attempts now).
Proof.
  intros Hla Hlock Ht Hle Hok.
  pose proof (check_rate_limit_expired s (Some e) now info t Hla Hlock Ht Hle)
    as Hcheck.
  destruct (login_accepted s _ e now _ Hcheck Hok) as (ud & Hdb & Hrun).
  eexists _, ud. split; [exact Hdb|]. split; [exact Hrun|].
  apply record_success_lookup.
Qed.

(** C3. Start from a record of [email] that counts no failure (or from no
    record). After [max_attempts] consecutive logins with bad credentials,
    the last one at time [t_last], every login is a rejection and the
    record holds locked_until = t_last + lockout_duration. From then on, in
    any state that kept the table of attempts, whatever its directory,
    configuration and session: a login before that time is answered with
    the account-locked message and changes nothing, even with good
    credentials; a login with good credentials at or after that time
    succeeds and leaves the record with a failed count of 0 and no lockout
    time. *)
Theorem lockout_after_max_attempts (s : system) (email : string)
    (times : list Z) (t_last : Z) :
  counted s email 0 ->
  credentials_ok s email = false ->
  Z.of_nat (length times) + 1 = max_attempts s ->
  0 <= lockout_duration s ->
  0 < t_last ->
  exists s' results info,
    login_each email (times ++ [t_last]) s = (s', results) /\
    length results = Z.to_nat (max_attempts s) /\
    Forall rejected results /\
    login_attempts s' !! Some email = Some info /\
    attempts info = max_attempts s /\
    locked_until info = Some (t_last + lockout_duration s) /\
    (forall s2 now,
       login_attempts s2 = login_attempts s' ->
       now < t_last + lockout_duration s ->
       login (Some email) now s2 =
       (s2, Ok (false,
                "Cuenta bloqueada. Intente nuevamente en "
                ++ str_of_int (t_last + lockout_duration s - now)
                ++ " segundos."))) /\
    (forall s2 now,
       login_attempts s2 = login_attempts s' ->
       t_last + lockout_duration s <= now ->
       credentials_ok s2 email = true ->
       exists s3 message after,
         login (Some email) now s2 = (s3, Ok (true, message)) /\
         login_attempts s3 !! Some email = Some after /\
         attempts after = 0 /\ locked_until after = None).
Proof.
  intros Hzero Hbad Hmax Hlock Hpos.
  destruct (login_each_counts email times s 0 Hzero Hbad)
    as (s1 & rs & Hrun1 & Hall1 & Henv1 & Hc1); [lia|].
  rewrite Z.add_0_l in Hc1.
  assert (Hbad1 : credentials_ok s1 email = false)
    by (rewrite (credentials_ok_env s s1 email Henv1); exact Hbad).
  destruct (login_failure_step s1 email t_last _ Hc1 Hbad1)
    as (s' & r & info & Hrun2 & Hrej & Henv2 & Hla & Hatt & Hlu).
  destruct Henv1 as (_ & _ & Hmax1 & Hlock1 & _).
  rewrite Hmax1, Hlock1 in Hlu.
  rewrite (proj2 (Z.geb_le _ _)) in Hlu by lia.
  assert (Hlen : length rs = length times).
  { clear -Hrun1. revert s s1 rs Hrun1.
    induction times as [|t rest IH]; intros s s1 rs; cbn [login_each].
    - intros [= <- <-]. reflexivity.
    - destruct (login (Some email) t s) as [sa ra].
      destruct (login_each email rest sa) as [sb rb] eqn:Hrest.
      intros [= <- <-]. cbn. f_equal. exact (IH _ _ _ Hrest). }
  exists s', (rs ++ [r])%list, info.
  split.
  { rewrite login_each_app, Hrun1. cbn [login_each]. rewrite Hrun2.
    reflexivity. }
  split; [rewrite length_app, Hlen; cbn; lia|].
  split; [apply Forall_app; split; [exact Hall1|repeat constructor; exact Hrej]|].
  split; [exact Hla|]. split; [lia|]. split; [exact Hlu|].
  split.
  - intros s2 now Heq Hnow. rewrite <- Heq in Hla.
    apply (login_locked s2 email now info _ Hla Hlu); lia.
  - intros s2 now Heq Hnow Hok. rewrite <- Heq in Hla.
    destruct (login_after_lockout s2 email now info _ Hla Hlu)
      as (s3 & ud & _ & Hrun3 & Hfresh); [lia|exact Hnow|exact Hok|].
    exists s3, (greeting ud (Some email)), (fresh_attempts now).
    split; [exact Hrun3|]. split; [exact Hfresh|]. split; reflexivity.
Qed.

(** With the defaults (5 attempts, 300 s): five logins of the unregistered
    nuevo@utem.cl, the last at time 500, lock the identity until 800; once
    registered it is still refused at 799 and let in at 800. *)
Lemma lockout_after_max_attempts_witness :
  exists s' results,
    login_each "nuevo@utem.cl" [100; 200; 300; 400; 500] default_system
    = (s', results) /\
    Forall rejected results /\
    login (Some "nuevo@utem.cl") 799 (with_nuevo s')
    = (with_nuevo s',
       Ok (false, "Cuenta bloqueada. Intente nuevamente en 1 segundos.")) /\
    exists s3 message after,
      login (Some "nuevo@utem.cl") 800 (with_nuevo s')
      = (s3, Ok (true, message)) /\
      login_attempts s3 !! Some "nuevo@utem.cl" = Some after /\
      attempts after = 0 /\ locked_until after = None.
Proof.
  destruct (lockout_after_max_attempts default_system "nuevo@utem.cl"
              [100; 200; 300; 400] 500)
    as (s' & results & info & Hrun & _ & Hall & _ & _ & _ & Hlocked & Hfree).
  - reflexivity.
  - vm_compute. reflexivity.
  - reflexivity.
  - cbn. lia.
  - lia.
  - exists s', results. split; [exact Hrun|]. split; [exact Hall|].
    split.
    + apply (Hlocked (with_nuevo s') 799); [reflexivity|cbn; lia].
    + apply (Hfree (with_nuevo s') 800); [reflexivity|cbn; lia|].
      assert (Hdb : users_db s' = users_db default_system).
      { apply (f_equal fst) in Hrun. cbn [fst] in Hrun. rewrite <- Hrun.
        vm_compute. reflexivity. }
      assert (Hcfg : config s' = config default_system).
      { apply (f_equal fst) in Hrun. cbn [fst] in Hrun. rewrite <- Hrun.
        vm_compute. reflexivity. }
      unfold credentials_ok, with_nuevo. cbn [config users_db set_users_db].
      rewrite Hcfg, Hdb. vm_compute. reflexivity.
Defined.

End LoginProps.

(** ** The session invariant *)

Module InvariantProps.
Import Py PyFacts Auth Scenarios RateLimitProps LoginProps.

#[local] Arguments record_login_attempt : simpl never.
#[local] Arguments check_rate_limit : simpl never.

Lemma login_session s email now :
  session (fst (login email now s)) = session s \/
  exists e ud,
    email = Some e /\
    session (fst (login email now s)) =
    {| authenticated := true; user := Some e; user_data := Some ud;
       login_time := Some now; last_activity := Some now |}.
Proof.
  destruct (check_rate_limit_frame s email now)
    as (la & allowed & m & Hframe).
  unfold login, try_except, login_body, bind. rewrite Hframe. cbn.
  destruct allowed; cbn; [|left; reflexivity].
  destruct (any_domain email (default [] (dominios_permitidos (config s))))
    as [[|]|ex] eqn:Hdom; cbn;
    [| |rewrite (any_domain_Raise _ _ _ Hdom); cbn].
  - destruct email as [e|]; cbn.
    + destruct (users_db s !! e) as [ud|]; cbn.
      * destruct (default false (activo ud)); cbn.
        -- match goal with
           | |- context [record_login_attempt (Some e) true now ?s2] =>
               destruct (record_login_attempt_success s2 (Some e) now)
                 as [la' Hrec]
           end.
           rewrite Hrec. cbn. right. eauto.
        -- rewrite record_login_attempt_failure. cbn. left; reflexivity.
      * rewrite record_login_attempt_failure. cbn. left; reflexivity.
    + rewrite record_login_attempt_failure. cbn. left; reflexivity.
  - rewrite record_login_attempt_failure. cbn. left; reflexivity.
  - left; reflexivity.
Qed.

Lemma check_session_timeout_session s now :
  session (fst (check_session_timeout now s)) = session s \/
  session (fst (check_session_timeout now s)) = cleared_session \/
  session (fst (check_session_timeout now s))
  = set_last_activity (Some now) (session s).
Proof.
  unfold check_session_timeout, bind, gets. cbn.
  destruct (authenticated (session s) && present (last_activity (session s)));
    [|left; reflexivity].
  destruct (now - default 0 (last_activity (session s))
            >? default 3600 (timeout_sesion (config s))); cbn; [|tauto].
  unfold logout, bind, modify, st_rerun. cbn.
  destruct (script_run s); cbn; tauto.
Qed.

Lemma delete_user_session str_exn s email :
  session (fst (delete_user str_exn email s)) = session s.
Proof.
  unfold delete_user, try_except, bind, gets, ret. cbn.
  destruct (users_db s !! email); cbn; [|reflexivity].
  destruct (decide (email = "admin@utem.cl")); reflexivity.
Qed.

Lemma run_call_session_wf c s :
  session_wf (session s) -> session_wf (session (run_call c s)).
Proof.
  intros Hwf. destruct c as [email now| |now|email]; cbn [run_call].
  - destruct (login_session s email now) as [Heq|(e & ud & _ & Heq)];
      rewrite Heq; [exact Hwf|]. intros _. cbn. eauto.
  - unfold logout, bind, modify, st_rerun. cbn.
    destruct (script_run s); intros H; discriminate H.
  - destruct (check_session_timeout_session s now) as [Heq|[Heq|Heq]];
      rewrite Heq.
    + exact Hwf.
    + intros H. discriminate H.
    + intros H. destruct (Hwf H) as (Hu & Hd & Hl & _). cbn. eauto.
  - rewrite delete_user_session. exact Hwf.
Qed.

(** Every session that the calls of the class produce from a new system is
    well formed: the hypotheses "has a profile" and "has a last activity
    time" of the statements about authenticated sessions hold for them. *)
Lemma reachable_session_wf db cfg (cs : list call) :
  session_wf (session (run_calls cs (new_system db cfg))).
Proof.
  unfold run_calls.
  assert (Hinit : session_wf (session (new_system db cfg)))
    by (intros H; discriminate H).
  revert Hinit. generalize (new_system db cfg) as s.
  induction cs as [|c cs IH]; intros s Hwf; cbn [foldl]; [exact Hwf|].
  apply IH. apply run_call_session_wf. exact Hwf.
Qed.

End InvariantProps.

(** ** config.py: roles, permissions and default roles *)

Module RolesProps.
Import Py PyFacts Config ConfigProps.

Lemma dict_get_present {A : Type} (d : list (string * A)) (k : string) :
  present (dict_get d k) = true <-> k ∈ d.*1.
Proof.
  induction d as [|[k' v] d IH]; simpl.
  - split; [discriminate|]. intros H. inversion H.
  - destruct (decide (k' = k)) as [->|Hne]; simpl.
    + split; [intros _; apply list_elem_of_here|reflexivity].
    + rewrite IH. rewrite elem_of_cons. split; [tauto|].
      intros [Heq|Hin]; [congruence|exact Hin].
Qed.

Lemma validate_role_hierarchy role :
  validate_role role = true <-> role ∈ get_role_hierarchy.
Proof. unfold validate_role. apply dict_get_present. Qed.

Lemma earlier_in_hierarchy m t :
  earlier m t -> m ∈ get_role_hierarchy /\ t ∈ get_role_hierarchy.
Proof.
  intros (i & j & Hi & Hj & _). split; apply list_elem_of_lookup; eauto.
Qed.

(** X1. The permission check and the permission list of a role agree, and a
    role that is not in [ROLES] is no error: it has no information, an
    empty permission list and no permission. *)
Theorem check_role_permission_agrees (role permission : string) :
  (check_role_permission role permission = true <->
   validate_role role = true /\ permission ∈ get_user_permissions role) /\
  (validate_role role = false ->
   get_role_info role = None /\ get_user_permissions role = [] /\
   check_role_permission role permission = false).
Proof.
  unfold check_role_permission, get_user_permissions, get_role_info,
    validate_role.
  destruct (dict_get ROLES role) as [info|]; simpl.
  - rewrite bool_decide_eq_true. split; [tauto|discriminate].
  - split; [|auto]. split; [discriminate|].
    intros [_ H]. inversion H.
Qed.

Lemma check_role_permission_agrees_witness :
  get_role_info "decano" = None /\ get_user_permissions "decano" = [] /\
  check_role_permission "decano" "view_courses" = false.
Proof.
  apply (proj2 (check_role_permission_agrees "decano" "view_courses")).
  reflexivity.
Defined.

(** X2. On the roles of [ROLES], [can_manage_role] is a strict total order:
    it relates only valid roles, it is transitive and asymmetric, and of two
    different valid roles one manages the other. *)
Theorem can_manage_role_strict_order :
  (forall a b, can_manage_role a b = Ok true ->
               validate_role a = true /\ validate_role b = true) /\
  (forall a b c, can_manage_role a b = Ok true ->
                 can_manage_role b c = Ok true ->
                 can_manage_role a c = Ok true) /\
  (forall a b, can_manage_role a b = Ok true ->
               can_manage_role b a = Ok false) /\
  (forall a b, validate_role a = true -> validate_role b = true -> a <> b ->
               can_manage_role a b = Ok true \/
               can_manage_role b a = Ok true).
Proof.
  pose proof hierarchy_NoDup as Hnd.
  pose proof (proj1 (NoDup_alt _) Hnd) as Hinj.
  split; [|split; [|split]].
  - intros a b H. apply can_manage_role_true in H.
    apply earlier_in_hierarchy in H as [Ha Hb].
    split; apply validate_role_hierarchy; assumption.
  - intros a b c Hab Hbc. apply can_manage_role_true in Hab, Hbc.
    apply can_manage_role_true.
    destruct Hab as (i & j & Hi & Hj & Hij).
    destruct Hbc as (j' & k & Hj' & Hk & Hjk).
    pose proof (Hinj j j' b Hj Hj'). exists i, k. repeat split; [done..|lia].
  - intros a b Hab.
    destruct (can_manage_role_total b a) as [[|] Hba]; [|exact Hba].
    exfalso. apply can_manage_role_true in Hab, Hba.
    destruct Hab as (i & j & Hi & Hj & Hij).
    destruct Hba as (j' & i' & Hj' & Hi' & Hji).
    pose proof (Hinj i i' a Hi Hi'). pose proof (Hinj j j' b Hj Hj'). lia.
  - intros a b Ha Hb Hne.
    apply validate_role_hierarchy, list_elem_of_lookup in Ha as [i Hi].
    apply validate_role_hierarchy, list_elem_of_lookup in Hb as [j Hj].
    destruct (Nat.lt_total i j) as [Hlt|[Heq|Hgt]].
    + left. apply can_manage_role_true. exists i, j. auto.
    + subst j. congruence.
    + right. apply can_manage_role_true. exists j, i. auto.
Qed.

Lemma can_manage_role_strict_order_witness :
  can_manage_role "admin" "estudiante" = Ok true /\
  can_manage_role "estudiante" "admin" = Ok false /\
  (can_manage_role "invitado" "profesor" = Ok true \/
   can_manage_role "profesor" "invitado" = Ok true).
Proof.
  destruct can_manage_role_strict_order as (_ & Htrans & Hasym & Htotal).
  assert (H : can_manage_role "admin" "estudiante" = Ok true)
    by (apply (Htrans "admin" "profesor" "estudiante"); reflexivity).
  split; [exact H|]. split; [exact (Hasym _ _ H)|].
  apply Htotal; [reflexivity|reflexivity|discriminate].
Defined.

(** X3. Whatever the address and the case mapping, the default role is a
    role of [ROLES]; it is admin exactly for the addresses of
    [admin_emails], and profesor or estudiante only for an address that
    ends with @utem.cl, which [is_utem_email] accepts. *)
Theorem get_default_role_for_email_valid (lower : string -> string)
    (email : string) :
  validate_role (get_default_role_for_email lower email) = true /\
  (get_default_role_for_email lower email = "admin" <->
   is_admin_email email = true) /\
  (get_default_role_for_email lower email = "profesor" \/
   get_default_role_for_email lower email = "estudiante" ->
   endswith email "@utem.cl" = true /\ is_utem_email email = true).
Proof.
  unfold get_default_role_for_email.
  destruct (is_admin_email email).
  { split; [reflexivity|]. split; [tauto|]. intros [H|H]; discriminate H. }
  destruct (endswith email "@utem.cl") eqn:Hutem.
  - assert (Hsup : is_utem_email email = true)
      by (unfold is_utem_email; cbn; now rewrite Hutem).
    destruct (existsb _ _).
    + split; [reflexivity|]. split; [|auto]. split; discriminate.
    + split; [reflexivity|]. split; [|auto]. split; discriminate.
  - assert (Hinv : (if endswith email "@gmail.com" then "invitado"
                    else "invitado") = "invitado")
      by (destruct (endswith email "@gmail.com"); reflexivity).
    rewrite Hinv.
    split; [reflexivity|]. split; [split; discriminate|].
    intros [H|H]; discriminate H.
Qed.

Lemma get_default_role_for_email_valid_witness :
  endswith "ana.docente@utem.cl" "@utem.cl" = true /\
  is_utem_email "ana.docente@utem.cl" = true.
Proof.
  apply (proj2 (proj2 (get_default_role_for_email_valid ascii_lower
                         "ana.docente@utem.cl"))).
  left. vm_compute. reflexivity.
Defined.

(** The branches of the default role, by evaluation. *)
Example get_default_role_for_email_table :
  get_default_role_for_email ascii_lower "sistemas@utem.cl" = "admin" /\
  get_default_role_for_email ascii_lower "J.PROFE@utem.cl" = "profesor" /\
  get_default_role_for_email ascii_lower "juan@utem.cl" = "estudiante" /\
  get_default_role_for_email ascii_lower "juan@gmail.com" = "invitado" /\
  get_default_role_for_email ascii_lower "prof@utem.ac.cl" = "invitado".
Proof. repeat split; vm_compute; reflexivity. Qed.

End RolesProps.

(** ** auth.py: more on login and the rate limiter *)

Module LoginMoreProps.
Import Py PyFacts Auth Scenarios AuthzProps RateLimitProps LoginProps.

#[local] Arguments record_login_attempt : simpl never.
#[local] Arguments check_rate_limit : simpl never.

Lemma check_rate_limit_others s email now :
  exists la allowed message,
    check_rate_limit email now s
    = (set_login_attempts la s, Ok (allowed, message)) /\
    forall k, k <> email -> la !! k = login_attempts s !! k.
Proof.
  unfold check_rate_limit, bind, gets. cbn.
  destruct (login_attempts s !! email) as [info|].
  - destruct (num_and (locked_until info) (fun t => now <? t)).
    + exists (login_attempts s). rewrite set_login_attempts_id. eauto.
    + destruct (num_and (locked_until info) (fun t => now >=? t)); cbn.
      * eexists _, _, _. split; [reflexivity|].
        intros k Hk. apply lookup_insert_ne. congruence.
      * exists (login_attempts s). rewrite set_login_attempts_id. eauto.
  - cbn. eexists _, _, _. split; [reflexivity|].
    intros k Hk. apply lookup_insert_ne. congruence.
Qed.

Lemma record_failure_others s email now k :
  k <> email ->
  login_attempts (fst (record_login_attempt email false now s)) !! k
  = login_attempts s !! k.
Proof.
  intros Hk. rewrite record_login_attempt_failure. cbn.
  rewrite lookup_alter_ne by congruence.
  destruct (login_attempts s !! email); [reflexivity|].
  apply lookup_insert_ne. congruence.
Qed.

Lemma record_login_attempt_success_eq s email now :
  record_login_attempt email true now s =
  (set_login_attempts
     (<[email := fresh_attempts now]> (login_attempts s)) s, Ok tt).
Proof.
  unfold record_login_attempt, bind, gets, modify, ret. cbn.
  destruct (login_attempts s !! email); cbn; [reflexivity|].
  rewrite insert_insert_eq. reflexivity.
Qed.

Lemma domain_allowed_iff s e :
  any_domain (Some e) (default [] (dominios_permitidos (config s))) = Ok true
  <-> domain_allowed s e.
Proof.
  rewrite any_domain_Some. unfold domain_allowed. split.
  - intros [= H]. apply existsb_exists in H as (d & Hin & Hend).
    apply endswith_spec in Hend as [p Hp].
    exists d, p. split; [apply list_elem_of_In; exact Hin|exact Hp].
  - intros (d & p & Hin & Hp). f_equal. apply existsb_exists.
    exists d. split; [apply list_elem_of_In; exact Hin|].
    apply endswith_spec. eauto.
Qed.

Lemma credentials_ok_iff s e :
  credentials_ok s e = true <->
  domain_allowed s e /\
  exists ud, users_db s !! e = Some ud /\ default false (activo ud) = true.
Proof.
  unfold credentials_ok. rewrite <- domain_allowed_iff.
  destruct (any_domain (Some e) _) as [[|]|ex].
  - destruct (users_db s !! e) as [ud|].
    + split; [eauto|]. intros (_ & ud' & [= <-] & H). exact H.
    + split; [discriminate|]. intros (_ & ud' & [=] & _).
  - split; [discriminate|]. intros ([=] & _).
  - split; [discriminate|]. intros ([=] & _).
Qed.

(** The two ways out of [login]: a rejection, which leaves everything but
    the table of attempts, or a success, which also opens the session. *)
Lemma login_cases s email now :
  exists la,
    (forall k, k <> email -> la !! k = login_attempts s !! k) /\
    ((exists message,
        login email now s = (set_login_attempts la s, Ok (false, message)))
     \/
     (exists e ud,
        email = Some e /\ credentials_ok s e = true /\
        users_db s !! e = Some ud /\
        la !! Some e = Some (fresh_attempts now) /\
        login email now s =
        (set_session (opened_session e ud now) (set_login_attempts la s),
         Ok (true, greeting ud (Some e))))).
Proof.
  destruct (check_rate_limit_others s email now)
    as (la & allowed & m & Hframe & Hothers).
  unfold login, try_except, login_body, bind. rewrite Hframe. cbn.
  destruct allowed; cbn; [|exists la; split; [exact Hothers|left; eauto]].
  pose proof (record_login_attempt_failure (set_login_attempts la s) email now)
    as Hfail.
  pose proof (record_failure_others (set_login_attempts la s) email now)
    as Hfo.
  rewrite Hfail in Hfo. cbn in Hfo, Hfail.
  assert (Hrej : forall message,
    exists la',
      (forall k, k <> email -> la' !! k = login_attempts s !! k) /\
      (fst (record_login_attempt email false now (set_login_attempts la s)),
       @Ok (bool * string) (false, message))
      = (set_login_attempts la' s, Ok (false, message))).
  { intros message. rewrite Hfail. cbn. eexists. split; [|reflexivity].
    intros k Hk. rewrite (Hfo k Hk). exact (Hothers k Hk). }
  destruct (any_domain email (default [] (dominios_permitidos (config s))))
    as [[|]|ex] eqn:Hdom; cbn;
    [| |rewrite (any_domain_Raise _ _ _ Hdom); cbn].
  - destruct email as [e|]; cbn.
    + destruct (users_db s !! e) as [ud|] eqn:Hdb; cbn.
      * destruct (default false (activo ud)) eqn:Hact; cbn.
        -- rewrite record_login_attempt_success_eq. cbn.
           exists (<[Some e := fresh_attempts now]> la). split.
           ++ intros k Hk. rewrite lookup_insert_ne by congruence.
              apply Hothers, Hk.
           ++ right. exists e, ud. split; [reflexivity|].
              split; [unfold credentials_ok; rewrite Hdom, Hdb; exact Hact|].
              split; [exact Hdb|].
              split; [apply lookup_insert_eq|reflexivity].
        -- destruct (Hrej "Usuario inactivo. Contacte al administrador.")
             as (la' & Ho & Heq).
           rewrite Hfail in Heq |- *. cbn in Heq |- *.
           exists la'. split; [exact Ho|left]. eexists. exact Heq.
      * destruct (Hrej "Usuario no registrado en el sistema. Contacte al administrador.")
          as (la' & Ho & Heq).
        rewrite Hfail in Heq |- *. cbn in Heq |- *.
        exists la'. split; [exact Ho|left]. eexists. exact Heq.
    + destruct (Hrej "Usuario no registrado en el sistema. Contacte al administrador.")
        as (la' & Ho & Heq).
      rewrite Hfail in Heq |- *. cbn in Heq |- *.
      exists la'. split; [exact Ho|left]. eexists. exact Heq.
  - destruct (Hrej "Dominio de email no autorizado. Use su cuenta @utem.cl")
      as (la' & Ho & Heq).
    rewrite Hfail in Heq |- *. cbn in Heq |- *.
    exists la'. split; [exact Ho|left]. eexists. exact Heq.
  - exists la. split; [exact Hothers|left; eauto].
Qed.

(** What a successful login leaves behind. *)
Lemma login_success_state s s' e now message :
  login (Some e) now s = (s', Ok (true, message)) ->
  exists ud la,
    credentials_ok s e = true /\ users_db s !! e = Some ud /\
    la !! Some e = Some (fresh_attempts now) /\
    s' = set_session (opened_session e ud now) (set_login_attempts la s).
Proof.
  intros Hrun.
  destruct (login_cases s (Some e) now) as (la & _ & [[m Hrej]|Hacc]).
  - rewrite Hrej in Hrun. discriminate Hrun.
  - destruct Hacc as (e' & ud & [= <-] & Hok & Hdb & Hfresh & Hsucc).
    rewrite Hsucc in Hrun. injection Hrun as <- _.
    exists ud, la. auto.
Qed.

(** A system with a user who is registered, active and locked out until
    time 800 after five failures. *)
Lemma juan_locked_record :
  login_attempts
    (set_login_attempts
       (<[Some "juan.perez@utem.cl" :=
            {| attempts := 5; last_attempt := 500;
               locked_until := Some 800 |}]> ∅) default_system)
  !! Some "juan.perez@utem.cl"
  = Some {| attempts := 5; last_attempt := 500; locked_until := Some 800 |}.
Proof. vm_compute. reflexivity. Qed.

(** X4. [login] answers success only for a string identity that ends with
    a configured domain, is registered and is active; the session it opens
    holds that identity, the directory entry and the current time, and the
    message greets the user. *)
Theorem login_success_sound (s s' : system) (email : option string)
    (now : Z) (message : string) :
  login email now s = (s', Ok (true, message)) ->
  exists e ud,
    email = Some e /\ domain_allowed s e /\
    users_db s !! e = Some ud /\ default false (activo ud) = true /\
    session s' = opened_session e ud now /\
    message = greeting ud (Some e) /\
    get_current_user (session s') = Some e /\
    get_current_user_data (session s') = Some ud.
Proof.
  intros Hrun.
  destruct (login_cases s email now) as (la & _ & [[m Hrej]|Hacc]).
  - rewrite Hrej in Hrun. discriminate Hrun.
  - destruct Hacc as (e & ud & -> & Hok & Hdb & _ & Hsucc).
    rewrite Hsucc in Hrun. injection Hrun as <- <-.
    apply credentials_ok_iff in Hok as (Hdom & ud' & Hdb' & Hact).
    rewrite Hdb in Hdb'. injection Hdb' as <-.
    exists e, ud. repeat split; assumption || reflexivity.
Qed.

Lemma login_success_sound_witness :
  exists e ud,
    Some "juan.perez@utem.cl" = Some e /\ domain_allowed default_system e /\
    users_db default_system !! e = Some ud /\
    default false (activo ud) = true.
Proof.
  destruct (login (Some "juan.perez@utem.cl") 1000 default_system)
    as [s' r] eqn:Hrun.
  assert (Hr : r = Ok (true, "Bienvenido Juan Pérez")).
  { apply (f_equal snd) in Hrun. cbn [snd] in Hrun. rewrite <- Hrun.
    vm_compute. reflexivity. }
  subst r.
  destruct (login_success_sound _ _ _ _ _ Hrun)
    as (e & ud & He & Hdom & Hdb & Hact & _).
  exists e, ud. auto.
Defined.

(** X5. [login] never changes the user directory, the configuration or the
    limits of the rate limiter, and a login that is answered with false, for
    whatever reason, leaves the current session as it was. *)
Theorem login_leaves (s : system) (email : option string) (now : Z) :
  users_db (fst (login email now s)) = users_db s /\
  config (fst (login email now s)) = config s /\
  max_attempts (fst (login email now s)) = max_attempts s /\
  lockout_duration (fst (login email now s)) = lockout_duration s /\
  (forall message,
     snd (login email now s) = Ok (false, message) ->
     session (fst (login email now s)) = session s).
Proof.
  destruct (login_cases s email now) as (la & _ & [[m Hrej]|Hacc]).
  - rewrite Hrej. cbn. repeat split.
  - destruct Hacc as (e & ud & _ & _ & _ & _ & Hsucc).
    rewrite Hsucc. cbn. repeat split. intros message H. discriminate H.
Qed.

Lemma login_leaves_witness :
  session (fst (login (Some "eve@gmail.com") 2000
                  (set_session profesor_informatica default_system)))
  = profesor_informatica.
Proof.
  apply (proj2 (proj2 (proj2 (proj2
           (login_leaves (set_session profesor_informatica default_system)
              (Some "eve@gmail.com") 2000))))
           "Dominio de email no autorizado. Use su cuenta @utem.cl").
  vm_compute. reflexivity.
Defined.

(** X6. The attempt records are kept per identity: a login of one identity,
    whatever its outcome, leaves the record of every other identity as it
    was. *)
Theorem login_isolates_identities (s : system) (email other : option string)
    (now : Z) :
  other <> email ->
  login_attempts (fst (login email now s)) !! other
  = login_attempts s !! other.
Proof.
  intros Hne.
  destruct (login_cases s email now) as (la & Hothers & [[m Hrej]|Hacc]).
  - rewrite Hrej. cbn. apply Hothers, Hne.
  - destruct Hacc as (e & ud & _ & _ & _ & _ & Hsucc).
    rewrite Hsucc. cbn. apply Hothers, Hne.
Qed.

Lemma login_isolates_identities_witness :
  login_attempts (fst (login (Some "eve@gmail.com") 1000 three_failures))
  !! Some "juan.perez@utem.cl"
  = login_attempts three_failures !! Some "juan.perez@utem.cl".
Proof.
  apply (login_isolates_identities three_failures (Some "eve@gmail.com")
           (Some "juan.perez@utem.cl") 1000).
  discriminate.
Defined.

(** X7. After a successful login the permission check follows the directory
    entry of the user: every permission for the role admin, otherwise
    exactly the permissions of the entry's own list. *)
Theorem login_then_is_authorized (s s' : system) (e : string) (now : Z)
    (message permission : string) :
  login (Some e) now s = (s', Ok (true, message)) ->
  exists ud,
    users_db s !! e = Some ud /\
    (is_authorized (session s') permission = true <->
     rol ud = Some "admin" \/ permission ∈ default [] (permisos ud)).
Proof.
  intros Hrun.
  destruct (login_success_state _ _ _ _ _ Hrun)
    as (ud & la & _ & Hdb & _ & ->).
  exists ud. split; [exact Hdb|].
  assert (Hauth : authenticated (opened_session e ud now) = true)
    by reflexivity.
  assert (Hud : user_data (opened_session e ud now) = Some ud)
    by reflexivity.
  cbn [session set_session].
  unfold is_authorized.
  rewrite (get_user_role_eq _ ud Hauth Hud).
  rewrite (get_user_permissions_eq _ ud Hauth Hud), Hauth. cbn [negb].
  destruct (decide (rol ud = Some "admin")) as [Hadm|Hno].
  - split; [auto|reflexivity].
  - rewrite bool_decide_eq_true. tauto.
Qed.

Lemma login_then_is_authorized_witness :
  exists ud,
    users_db default_system !! "juan.perez@utem.cl" = Some ud /\
    (is_authorized
       (session (fst (login (Some "juan.perez@utem.cl") 1000 default_system)))
       "exportacion" = true <->
     rol ud = Some "admin" \/ "exportacion" ∈ default [] (permisos ud)).
Proof.
  destruct (login (Some "juan.perez@utem.cl") 1000 default_system)
    as [s' r] eqn:Hrun.
  assert (Hr : r = Ok (true, "Bienvenido Juan Pérez")).
  { apply (f_equal snd) in Hrun. cbn [snd] in Hrun. rewrite <- Hrun.
    vm_compute. reflexivity. }
  subst r. cbn [fst].
  exact (login_then_is_authorized _ _ _ _ _ "exportacion" Hrun).
Defined.

(** X8. While an identity is locked out, logins do not prolong the lockout
    and are not counted: however many are made before the lockout time, the
    system stays exactly as it was and each one is answered with false. *)
Theorem lockout_not_extended (s : system) (e : string) (info : attempts_info)
    (t : Z) (times : list Z) :
  login_attempts s !! Some e = Some info ->
  locked_until info = Some t ->
  t <> 0 ->
  Forall (fun now => now < t) times ->
  exists results,
    login_each e times s = (s, results) /\
    length results = length times /\
    Forall (fun r => exists message, r = Ok (false, message)) results.
Proof.
  intros Hla Hlock Ht Hall.
  induction Hall as [|now rest Hnow _ IH].
  - exists []. repeat split. constructor.
  - destruct IH as (rs & Hrest & Hlen & Hrs).
    cbn [login_each].
    rewrite (login_locked s e now info t Hla Hlock Ht Hnow), Hrest.
    eexists. split; [reflexivity|].
    split; [cbn; now rewrite Hlen|]. constructor; eauto.
Qed.

Lemma lockout_not_extended_witness :
  exists results,
    login_each "juan.perez@utem.cl" [600; 700; 799]
      (set_login_attempts
         (<[Some "juan.perez@utem.cl" :=
              {| attempts := 5; last_attempt := 500;
                 locked_until := Some 800 |}]> ∅) default_system)
    = (set_login_attempts
         (<[Some "juan.perez@utem.cl" :=
              {| attempts := 5; last_attempt := 500;
                 locked_until := Some 800 |}]> ∅) default_system,
       results) /\
    length results = 3%nat.
Proof.
  destruct (lockout_not_extended _ "juan.perez@utem.cl" _ 800 [600; 700; 799]
              juan_locked_record eq_refl)
    as (results & Hrun & Hlen & _).
  - discriminate.
  - repeat constructor.
  - exists results. split; [exact Hrun|exact Hlen].
Defined.

(** A login with good credentials on a record that is not locked succeeds,
    whatever the count of the record. *)
Lemma login_unlocked_succeeds s e n now :
  counted s e n ->
  credentials_ok s e = true ->
  exists s' ud,
    users_db s !! e = Some ud /\
    login (Some e) now s = (s', Ok (true, greeting ud (Some e))) /\
    login_attempts s' !! Some e = Some (fresh_attempts now).
Proof.
  intros Hcount Hok. unfold counted in Hcount.
  destruct (login_attempts s !! Some e) as [info|] eqn:Hla.
  - destruct Hcount as [_ Hnone].
    pose proof (check_rate_limit_unlocked s (Some e) now info Hla Hnone)
      as Hcheck.
    rewrite <- (set_login_attempts_id s) in Hcheck at 2.
    destruct (login_accepted s _ e now _ Hcheck Hok) as (ud & Hdb & Hrun).
    eexists _, ud. split; [exact Hdb|]. split; [exact Hrun|].
    apply record_success_lookup.
  - pose proof (check_rate_limit_absent s (Some e) now Hla) as Hcheck.
    destruct (login_accepted s _ e now _ Hcheck Hok) as (ud & Hdb & Hrun).
    eexists _, ud. split; [exact Hdb|]. split; [exact Hrun|].
    apply record_success_lookup.
Qed.

(** X9. Fewer than [max_attempts] failures never lock: after any number of
    rejected logins below the maximum, made at any times, a login with good
    credentials succeeds at once and leaves a failed count of 0. *)
Theorem below_max_attempts_no_lock (s : system) (email : string)
    (times : list Z) :
  counted s email 0 ->
  credentials_ok s email = false ->
  Z.of_nat (length times) < max_attempts s ->
  exists s1 results,
    login_each email times s = (s1, results) /\
    Forall rejected results /\
    forall s2 now,
      login_attempts s2 = login_attempts s1 ->
      credentials_ok s2 email = true ->
      exists s3 message after,
        login (Some email) now s2 = (s3, Ok (true, message)) /\
        login_attempts s3 !! Some email = Some after /\
        attempts after = 0 /\ locked_until after = None.
Proof.
  intros Hzero Hbad Hlt.
  destruct (login_each_counts email times s 0 Hzero Hbad)
    as (s1 & rs & Hrun & Hall & _ & Hc1); [lia|].
  exists s1, rs. split; [exact Hrun|]. split; [exact Hall|].
  intros s2 now Heq Hok.
  assert (Hc2 : counted s2 email (0 + Z.of_nat (length times)))
    by (unfold counted in *; rewrite Heq; exact Hc1).
  destruct (login_unlocked_succeeds s2 email _ now Hc2 Hok)
    as (s3 & ud & _ & Hrun3 & Hfresh).
  exists s3, (greeting ud (Some email)), (fresh_attempts now).
  split; [exact Hrun3|]. split; [exact Hfresh|]. split; reflexivity.
Qed.

Lemma below_max_attempts_no_lock_witness :
  exists s1 results,
    login_each "nuevo@utem.cl" [100; 200; 300; 400] default_system
    = (s1, results) /\
    exists s3 message,
      login (Some "nuevo@utem.cl") 401 (with_nuevo s1)
      = (s3, Ok (true, message)).
Proof.
  destruct (below_max_attempts_no_lock default_system "nuevo@utem.cl"
              [100; 200; 300; 400])
    as (s1 & results & Hrun & _ & Hfree).
  - reflexivity.
  - vm_compute. reflexivity.
  - cbn. lia.
  - exists s1, results. split; [exact Hrun|].
    destruct (Hfree (with_nuevo s1) 401) as (s3 & message & _ & Hrun3 & _).
    + reflexivity.
    + assert (Hdb : users_db s1 = users_db default_system).
      { apply (f_equal fst) in Hrun. cbn [fst] in Hrun. rewrite <- Hrun.
        vm_compute. reflexivity. }
      assert (Hcfg : config s1 = config default_system).
      { apply (f_equal fst) in Hrun. cbn [fst] in Hrun. rewrite <- Hrun.
        vm_compute. reflexivity. }
      unfold credentials_ok, with_nuevo. cbn [config users_db set_users_db].
      rewrite Hcfg, Hdb. vm_compute. reflexivity.
    + exists s3, message. exact Hrun3.
Defined.

(** X10. A login without identity faults before any failure is recorded:
    with a non-empty list of domains, however often [login(None)] is called
    it is answered with the generic error, never with a lockout, and the
    record kept under [None] stays at a count of 0 and unlocked. *)
Theorem login_none_never_counted (s : system) (domain : string)
    (domains : list string) (times : list Z) :
  dominios_permitidos (config s) = Some (domain :: domains) ->
  login_attempts s !! None = None ->
  exists s' results,
    login_times None times s = (s', results) /\
    Forall (fun r => r = Ok (false, "Error en el proceso de autenticación"))
      results /\
    users_db s' = users_db s /\ session s' = session s /\
    forall info,
      login_attempts s' !! None = Some info ->
      attempts info = 0 /\ locked_until info = None.
Proof.
  intros Hdom Hnone.
  assert (Hinv : forall info, login_attempts s !! None = Some info ->
                              attempts info = 0 /\ locked_until info = None)
    by (intros info H; rewrite Hnone in H; discriminate H).
  clear Hnone. revert s Hdom Hinv.
  induction times as [|t rest IH]; intros s Hdom Hinv.
  - exists s, []. split; [reflexivity|]. split; [constructor|].
    split; [reflexivity|]. split; [reflexivity|exact Hinv].
  - assert (Hstep : exists la,
      login None t s
      = (set_login_attempts la s,
         Ok (false, "Error en el proceso de autenticación")) /\
      forall info, la !! None = Some info ->
                   attempts info = 0 /\ locked_until info = None).
    { unfold login, try_except, login_body, bind.
      destruct (login_attempts s !! None) as [info|] eqn:Hla.
      - destruct (Hinv info eq_refl) as [_ Hunl].
        rewrite (check_rate_limit_unlocked s None t info Hla Hunl). cbn.
        rewrite Hdom. cbn. exists (login_attempts s).
        rewrite set_login_attempts_id. split; [reflexivity|].
        intros info' H. rewrite Hla in H. injection H as <-.
        apply Hinv. reflexivity.
      - rewrite (check_rate_limit_absent s None t Hla). cbn.
        rewrite Hdom. cbn. eexists. split; [reflexivity|].
        intros info' H. rewrite lookup_insert_eq in H. injection H as <-.
        split; reflexivity. }
    destruct Hstep as (la & Hrun & Hla).
    destruct (IH (set_login_attempts la s) Hdom Hla)
      as (s' & rs & Hrest & Hall & Hdb & Hsess & Hfinal).
    exists s', (Ok (false, "Error en el proceso de autenticación") :: rs).
    cbn [login_times]. rewrite Hrun, Hrest.
    split; [reflexivity|]. split; [constructor; [reflexivity|exact Hall]|].
    split; [exact Hdb|]. split; [exact Hsess|exact Hfinal].
Qed.

Lemma login_none_never_counted_witness :
  exists s' results,
    login_times None [1; 2; 3; 4; 5; 6; 7] default_system = (s', results) /\
    Forall (fun r => r = Ok (false, "Error en el proceso de autenticación"))
      results.
Proof.
  destruct (login_none_never_counted default_system "@utem.cl"
              ["@profesores.utem.cl"; "@alumnos.utem.cl"]
              [1; 2; 3; 4; 5; 6; 7])
    as (s' & results & Hrun & Hall & _).
  - reflexivity.
  - reflexivity.
  - exists s', results. split; [exact Hrun|exact Hall].
Defined.

(** X11. The count starts again after a lockout: the first login at or
    after the lockout time, if it is rejected, leaves a failed count of 1
    and no lockout (for a maximum above 1). *)
Theorem count_restarts_after_lockout (s : system) (e : string)
    (info : attempts_info) (t now : Z) :
  login_attempts s !! Some e = Some info ->
  locked_until info = Some t ->
  t <> 0 -> t <= now ->
  credentials_ok s e = false ->
  1 < max_attempts s ->
  exists s' r after,
    login (Some e) now s = (s', r) /\ rejected r /\
    login_attempts s' !! Some e = Some after /\
    attempts after = 1 /\ locked_until after = None.
Proof.
  intros Hla Hlock Ht Hle Hbad Hmax.
  pose proof (check_rate_limit_expired s (Some e) now info t Hla Hlock Ht Hle)
    as Hcheck.
  destruct (login_rejected s _ e now _ Hcheck Hbad) as (m & Hrun & Hm).
  rewrite record_login_attempt_failure in Hrun. cbn in Hrun.
  rewrite lookup_insert_eq in Hrun.
  eexists _, _, _. split; [exact Hrun|].
  split; [exists m; split; [reflexivity|exact Hm]|].
  cbn. rewrite lookup_alter_eq, lookup_insert_eq. cbn.
  split; [reflexivity|]. split; [reflexivity|].
  unfold count_failure. cbn.
  destruct (Z.geb_spec (0 + 1) (max_attempts s)); [lia|reflexivity].
Qed.

Lemma count_restarts_after_lockout_witness :
  exists s' r after,
    login (Some "nadie@utem.cl") 800
      (set_login_attempts
         (<[Some "nadie@utem.cl" :=
              {| attempts := 5; last_attempt := 500;
                 locked_until := Some 800 |}]> ∅) default_system)
    = (s', r) /\ rejected r /\
    login_attempts s' !! Some "nadie@utem.cl" = Some after /\
    attempts after = 1 /\ locked_until after = None.
Proof.
  apply (count_restarts_after_lockout _ "nadie@utem.cl"
           {| attempts := 5; last_attempt := 500; locked_until := Some 800 |}
           800 800).
  - vm_compute. reflexivity.
  - reflexivity.
  - discriminate.
  - lia.
  - vm_compute. reflexivity.
  - cbn. lia.
Defined.

(** X12. Without a list of allowed domains nobody logs in: when the
    configuration has no or an empty [dominios_permitidos] (as after a
    configuration file that cannot be read), every login of every identity,
    [None] included, is answered with false and the session stays as it
    was. *)
Theorem no_domains_no_login (s : system) (email : option string) (now : Z) :
  default [] (dominios_permitidos (config s)) = [] ->
  exists s' message,
    login email now s = (s', Ok (false, message)) /\
    session s' = session s /\ users_db s' = users_db s.
Proof.
  intros Hempty.
  destruct (login_cases s email now) as (la & _ & [[m Hrej]|Hacc]).
  - eexists _, m. split; [exact Hrej|]. split; reflexivity.
  - destruct Hacc as (e & ud & _ & Hok & _).
    apply credentials_ok_iff in Hok as ((d & p & Hin & _) & _).
    rewrite Hempty in Hin. inversion Hin.
Qed.

Lemma no_domains_no_login_witness :
  exists s' message,
    login (Some "admin@utem.cl") 1000
      (new_system (default_users "2025-01-01T00:00:00")
         {| roles := ∅; dominios_permitidos := None; timeout_sesion := None;
            max_intentos_login := None; duracion_bloqueo := None |})
    = (s', Ok (false, message)).
Proof.
  destruct (no_domains_no_login
              (new_system (default_users "2025-01-01T00:00:00")
                 {| roles := ∅; dominios_permitidos := None;
                    timeout_sesion := None; max_intentos_login := None;
                    duracion_bloqueo := None |})
              (Some "admin@utem.cl") 1000)
    as (s' & message & Hrun & _).
  - reflexivity.
  - exists s', message. exact Hrun.
Defined.

End LoginMoreProps.

(** ** auth.py: more on the user directory *)

Module DirectoryMoreProps.
Import Py PyFacts Auth Scenarios AuthzProps RateLimitProps LoginProps
  LoginMoreProps.

#[local] Arguments record_login_attempt : simpl never.
#[local] Arguments check_rate_limit : simpl never.

Lemma write_aliases_cons a aliases written db :
  write_aliases (a :: aliases) written db
  = alter (fun _ => written) a (write_aliases aliases written db).
Proof. reflexivity. Qed.

Lemma lookup_write_aliases_notin aliases written db (k : string) :
  k ∉ aliases -> write_aliases aliases written db !! k = db !! k.
Proof.
  induction aliases as [|a aliases IH]; intros Hk; [reflexivity|].
  apply not_elem_of_cons in Hk as [Hne Hk]. rewrite write_aliases_cons.
  rewrite lookup_alter_ne by congruence. apply IH, Hk.
Qed.

Lemma lookup_write_aliases_in aliases written db (k : string) :
  k ∈ aliases ->
  write_aliases aliases written db !! k = (fun _ => written) <$> db !! k.
Proof.
  induction aliases as [|a aliases IH]; intros Hk; [inversion Hk|].
  rewrite write_aliases_cons.
  destruct (decide (a = k)) as [->|Hne].
  - rewrite lookup_alter_eq.
    destruct (decide (k ∈ aliases)) as [Hin|Hout].
    + rewrite (IH Hin). destruct (db !! k); reflexivity.
    + rewrite (lookup_write_aliases_notin _ _ _ _ Hout). reflexivity.
  - rewrite lookup_alter_ne by exact Hne. apply IH.
    apply elem_of_cons in Hk as [->|Hk]; [congruence|exact Hk].
Qed.

Lemma lookup_write_aliases_is_Some aliases written db (k : string) :
  is_Some (db !! k) -> is_Some (write_aliases aliases written db !! k).
Proof.
  intros [p Hp]. destruct (decide (k ∈ aliases)) as [Hin|Hout].
  - rewrite (lookup_write_aliases_in _ _ _ _ Hin), Hp. cbn. eauto.
  - rewrite (lookup_write_aliases_notin _ _ _ _ Hout), Hp. eauto.
Qed.

Lemma add_user_run str_exn aliases shared s email user_info created :
  add_user str_exn aliases shared email user_info created s =
  if present (users_db s !! email) then (s, Ok (false, "Usuario ya existe"))
  else if existsb (endswith email)
            (default [] (dominios_permitidos (config s)))
  then
    let stamped := stamp_new created user_info in
    (set_users_db
       (<[email := stamped]> (write_aliases aliases stamped (users_db s)))
       (write_session shared stamped s),
     Ok (true, "Usuario agregado exitosamente"))
  else (s, Ok (false, "Dominio de email no válido")).
Proof.
  unfold add_user, try_except, bind, gets, validate_domain, lift. cbn.
  destruct (present (users_db s !! email)); cbn; [reflexivity|].
  rewrite any_domain_Some. cbn.
  destruct (existsb _ _); [|reflexivity].
  destruct shared; reflexivity.
Qed.

Lemma update_user_run str_exn aliases shared s email updates modified :
  update_user str_exn aliases shared email updates modified s =
  match users_db s !! email with
  | None => (s, Ok (false, "Usuario no existe"))
  | Some stored =>
      let updated := apply_updates updates modified stored in
      (set_users_db
         (<[email := updated]> (write_aliases aliases updated (users_db s)))
         (write_session shared updated s),
       Ok (true, "Usuario actualizado exitosamente"))
  end.
Proof.
  unfold update_user, try_except, bind, gets. cbn.
  destruct (users_db s !! email); [|reflexivity].
  destruct shared; reflexivity.
Qed.

Lemma delete_user_run str_exn s email :
  delete_user str_exn email s =
  match users_db s !! email with
  | None => (s, Ok (false, "Usuario no existe"))
  | Some _ =>
      if decide (email = "admin@utem.cl")
      then (s, Ok (false, "No se puede eliminar al administrador principal"))
      else (set_users_db (delete email (users_db s)) s,
            Ok (true, "Usuario eliminado exitosamente"))
  end.
Proof.
  unfold delete_user, try_except, bind, gets. cbn.
  destruct (users_db s !! email); cbn; [|reflexivity].
  destruct (decide (email = "admin@utem.cl")); reflexivity.
Qed.

Lemma existsb_endswith s email :
  existsb (endswith email) (default [] (dominios_permitidos (config s)))
  = true <-> domain_allowed s email.
Proof.
  rewrite <- domain_allowed_iff, any_domain_Some.
  split; [intros ->; reflexivity|intros [= H]; exact H].
Qed.

(** Key presence and the session's shape under the two writers. *)
Lemma add_user_keeps aliases shared email user_info created s :
  (forall other,
     is_Some (users_db s !! other) ->
     is_Some (users_db (fst (add_user (fun _ => "") aliases shared email
                               user_info created s)) !! other)) /\
  (session_wf (session s) ->
   session_wf (session (fst (add_user (fun _ => "") aliases shared email
                               user_info created s)))).
Proof.
  rewrite add_user_run.
  destruct (present (users_db s !! email)); cbn; [auto|].
  destruct (existsb _ _); cbn; [|auto]. split.
  - intros other Hother.
    destruct (decide (email = other)) as [->|Hne].
    + rewrite lookup_insert_eq. eauto.
    + rewrite lookup_insert_ne by exact Hne.
      apply lookup_write_aliases_is_Some, Hother.
  - intros Hwf. destruct shared; cbn; [|exact Hwf].
    intros Hauth. destruct (Hwf Hauth) as (Hu & _ & Hl & Ha).
    split; [exact Hu|]. split; [eexists; reflexivity|]. split; assumption.
Qed.

Lemma update_user_keeps aliases shared email updates modified s :
  (forall other,
     is_Some (users_db s !! other) ->
     is_Some (users_db (fst (update_user (fun _ => "") aliases shared email
                               updates modified s)) !! other)) /\
  (session_wf (session s) ->
   session_wf (session (fst (update_user (fun _ => "") aliases shared email
                               updates modified s)))).
Proof.
  rewrite update_user_run.
  destruct (users_db s !! email) as [stored|]; cbn; [|auto]. split.
  - intros other Hother.
    destruct (decide (email = other)) as [->|Hne].
    + rewrite lookup_insert_eq. eauto.
    + rewrite lookup_insert_ne by exact Hne.
      apply lookup_write_aliases_is_Some, Hother.
  - intros Hwf. destruct shared; cbn; [|exact Hwf].
    intros Hauth. destruct (Hwf Hauth) as (Hu & _ & Hl & Ha).
    split; [exact Hu|]. split; [eexists; reflexivity|]. split; assumption.
Qed.

Lemma nueva_allowed : domain_allowed default_system "nueva@utem.cl".
Proof. exists "@utem.cl", "nueva". split; [|reflexivity]. left. Qed.

(** X13. Adding an identity that is not in the directory and ends with an
    allowed domain succeeds, and reading it back gives the profile that was
    passed, stamped with the creation time and active unless it said
    otherwise. The stamps are written into the dictionary passed in: every
    other entry that does not hold that dictionary is as before, an entry
    that holds it shows the stamped profile too, the session is as before
    unless it holds that dictionary, and the attempt records are as
    before. *)
Theorem add_user_then_get (str_exn : exn -> string) (aliases : list string)
    (shared : bool) (s : system) (email : string) (user_info : profile)
    (created : string) :
  users_db s !! email = None ->
  domain_allowed s email ->
  exists s' stored,
    add_user str_exn aliases shared email user_info created s
    = (s', Ok (true, "Usuario agregado exitosamente")) /\
    get_user_by_email s' (Some email) = Some stored /\
    fecha_creacion stored = Some created /\
    activo stored = Some (default true (activo user_info)) /\
    nombre stored = nombre user_info /\ rol stored = rol user_info /\
    facultad stored = facultad user_info /\
    departamento stored = departamento user_info /\
    permisos stored = permisos user_info /\
    (forall other, other <> email -> other ∉ aliases ->
                   users_db s' !! other = users_db s !! other) /\
    (forall other, other <> email -> other ∈ aliases ->
                   users_db s' !! other
                   = (fun _ => stored) <$> users_db s !! other) /\
    (shared = false -> session s' = session s) /\
    login_attempts s' = login_attempts s.
Proof.
  intros Hnew Hdom. rewrite add_user_run, Hnew. cbn.
  rewrite (proj2 (existsb_endswith s email) Hdom).
  eexists _, (stamp_new created user_info). split; [reflexivity|].
  split; [cbn; apply lookup_insert_eq|].
  repeat (split; [reflexivity|]).
  split; [|split; [|split]].
  - intros other Hne Hout. cbn. rewrite lookup_insert_ne by congruence.
    apply lookup_write_aliases_notin, Hout.
  - intros other Hne Hin. cbn. rewrite lookup_insert_ne by congruence.
    apply lookup_write_aliases_in, Hin.
  - intros ->. reflexivity.
  - destruct shared; reflexivity.
Qed.

Lemma add_user_then_get_witness :
  exists s' stored,
    add_user (fun _ => "") [] false "nueva@utem.cl" nueva_info
      "2025-03-01T09:00:00" default_system
    = (s', Ok (true, "Usuario agregado exitosamente")) /\
    get_user_by_email s' (Some "nueva@utem.cl") = Some stored /\
    fecha_creacion stored = Some "2025-03-01T09:00:00" /\
    activo stored = Some true.
Proof.
  destruct (add_user_then_get (fun _ => "") [] false default_system
              "nueva@utem.cl" nueva_info "2025-03-01T09:00:00")
    as (s' & stored & Hrun & Hget & Hcreated & Hactive & _).
  - vm_compute. reflexivity.
  - exact nueva_allowed.
  - exists s', stored. repeat split; assumption.
Defined.

(** One dictionary added under two identities: the second call stamps the
    entry of the first as well. *)
Example add_user_same_dictionary_twice :
  let s1 := fst (add_user (fun _ => "") [] false "a@utem.cl" nueva_info
                   "2025-03-01T09:00:00" default_system) in
  let s2 := fst (add_user (fun _ => "") ["a@utem.cl"] false "b@utem.cl"
                   (stamp_new "2025-03-01T09:00:00" nueva_info)
                   "2025-03-02T10:00:00" s1) in
  (users_db s2 !! "a@utem.cl") ≫= fecha_creacion
  = Some "2025-03-02T10:00:00" /\
  users_db s2 !! "a@utem.cl" = users_db s2 !! "b@utem.cl".
Proof. split; vm_compute; reflexivity. Qed.

(** X14. [add_user] never removes an entry, never changes an entry that
    does not hold the dictionary passed in, and never raises: an identity
    already in the directory is refused with the already-exists message,
    before its domain is looked at, and an identity with a domain that is
    not allowed is refused with the invalid-domain message; in both cases
    the system is unchanged. *)
Theorem add_user_never_overwrites (str_exn : exn -> string)
    (aliases : list string) (shared : bool) (s : system) (email : string)
    (user_info : profile) (created : string) :
  (forall other,
     is_Some (users_db s !! other) ->
     is_Some (users_db (fst (add_user str_exn aliases shared email user_info
                               created s)) !! other)) /\
  (forall other p,
     other ∉ aliases ->
     users_db s !! other = Some p ->
     users_db (fst (add_user str_exn aliases shared email user_info
                      created s)) !! other = Some p) /\
  (is_Some (users_db s !! email) ->
   add_user str_exn aliases shared email user_info created s
   = (s, Ok (false, "Usuario ya existe"))) /\
  (users_db s !! email = None -> ~ domain_allowed s email ->
   add_user str_exn aliases shared email user_info created s
   = (s, Ok (false, "Dominio de email no válido"))).
Proof.
  rewrite add_user_run. split; [|split; [|split]].
  - intros other Hother.
    destruct (users_db s !! email) as [q|] eqn:Hdb; cbn; [exact Hother|].
    destruct (existsb _ _); cbn; [|exact Hother].
    destruct (decide (email = other)) as [->|Hne].
    + rewrite lookup_insert_eq. eauto.
    + rewrite lookup_insert_ne by exact Hne.
      apply lookup_write_aliases_is_Some, Hother.
  - intros other p Hout Hp.
    destruct (users_db s !! email) as [q|] eqn:Hdb; cbn; [exact Hp|].
    destruct (existsb _ _); cbn; [|exact Hp].
    rewrite lookup_insert_ne by (intros ->; congruence).
    rewrite (lookup_write_aliases_notin _ _ _ _ Hout). exact Hp.
  - intros [q Hq]. rewrite Hq. reflexivity.
  - intros Hnew Hno. rewrite Hnew. cbn.
    destruct (existsb _ _) eqn:Hex; [|reflexivity].
    exfalso. apply Hno, existsb_endswith, Hex.
Qed.

Lemma add_user_never_overwrites_witness :
  add_user (fun _ => "") [] false "juan.perez@utem.cl" nueva_info
    "2025-03-01T09:00:00" default_system
  = (default_system, Ok (false, "Usuario ya existe")).
Proof.
  apply (proj1 (proj2 (proj2 (add_user_never_overwrites (fun _ => "") []
                                false default_system "juan.perez@utem.cl"
                                nueva_info "2025-03-01T09:00:00")))).
  eexists. vm_compute. reflexivity.
Defined.



(** The answer of a login that the rate limiter lets through. *)
Lemma login_answer s e n now :
  counted s e n ->
  snd (login (Some e) now s) =
  if existsb (endswith e) (default [] (dominios_permitidos (config s))) then
    match users_db s !! e with
    | None =>
        Ok (false,
            "Usuario no registrado en el sistema. Contacte al administrador.")
    | Some ud =>
        if default false (activo ud) then Ok (true, greeting ud (Some e))
        else Ok (false, "Usuario inactivo. Contacte al administrador.")
    end
  else Ok (false, "Dominio de email no autorizado. Use su cuenta @utem.cl").
Proof.
  intros Hcount.
  assert (Hcheck : exists la,
    check_rate_limit (Some e) now s = (set_login_attempts la s, Ok (true, "OK"))).
  { unfold counted in Hcount.
    destruct (login_attempts s !! Some e) as [info|] eqn:Hla.
    - destruct Hcount as [_ Hnone]. exists (login_attempts s).
      rewrite set_login_attempts_id.
      exact (check_rate_limit_unlocked s (Some e) now info Hla Hnone).
    - eexists. exact (check_rate_limit_absent s (Some e) now Hla). }
  destruct Hcheck as [la Hcheck].
  unfold login, try_except, login_body, bind. rewrite Hcheck. cbn.
  rewrite any_domain_Some. cbn.
  destruct (existsb _ _); cbn.
  - destruct (users_db s !! e) as [ud|]; cbn.
    + destruct (default false (activo ud)); cbn.
      * rewrite record_login_attempt_success_eq. reflexivity.
      * rewrite record_login_attempt_failure. reflexivity.
    + rewrite record_login_attempt_failure. reflexivity.
  - rewrite record_login_attempt_failure. reflexivity.
Qed.

(** X16. Deactivating an account closes the door at once: after an
    [update_user] that sets [activo] to false, a login of that identity
    which the rate limiter lets through is answered with the
    inactive-account message. *)
Theorem deactivated_user_cannot_login (str_exn : exn -> string)
    (aliases : list string) (shared : bool) (s : system) (e : string)
    (stored updates : profile) (modified : string) (n now : Z) :
  users_db s !! e = Some stored ->
  activo updates = Some false ->
  domain_allowed s e ->
  counted s e n ->
  snd (login (Some e) now
         (fst (update_user str_exn aliases shared e updates modified s)))
  = Ok (false, "Usuario inactivo. Contacte al administrador.").
Proof.
  intros Hdb Hoff Hdom Hcount.
  rewrite update_user_run, Hdb. cbn zeta. cbn [fst].
  match goal with
  | |- snd (login _ _ ?s1) = _ =>
      assert (Hcount' : counted s1 e n)
        by (destruct shared; exact Hcount);
      assert (Hcfg : config s1 = config s) by (destruct shared; reflexivity);
      assert (Hget : users_db s1 !! e
                     = Some (apply_updates updates modified stored))
        by (cbn; apply lookup_insert_eq);
      rewrite (login_answer s1 e n now Hcount'), Hcfg, Hget
  end.
  rewrite (proj2 (existsb_endswith s e) Hdom). cbn. rewrite Hoff.
  reflexivity.
Qed.

Lemma deactivated_user_cannot_login_witness :
  snd (login (Some "juan.perez@utem.cl") 1000
         (fst (update_user (fun _ => "") [] false "juan.perez@utem.cl"
                 deactivate "2025-03-01T09:00:00" default_system)))
  = Ok (false, "Usuario inactivo. Contacte al administrador.").
Proof.
  apply (deactivated_user_cannot_login (fun _ => "") [] false default_system
           "juan.perez@utem.cl"
           (new_profile "2025-01-01T00:00:00" "Juan Pérez" "profesor"
              "ingenieria" "informatica" ["lectura"])
           deactivate "2025-03-01T09:00:00" 0 1000).
  - vm_compute. reflexivity.
  - reflexivity.
  - exists "@utem.cl", "juan.perez". split; [left|reflexivity].
  - reflexivity.
Defined.

(** X17. Deleting an identity of the directory other than admin@utem.cl
    succeeds and removes exactly that entry: it can no longer be read, every
    other entry is as before, and deleting it again answers not-found. *)
Theorem delete_user_removes (str_exn : exn -> string) (s : system)
    (email : string) :
  is_Some (users_db s !! email) ->
  email <> "admin@utem.cl" ->
  exists s',
    delete_user str_exn email s
    = (s', Ok (true, "Usuario eliminado exitosamente")) /\
    get_user_by_email s' (Some email) = None /\
    (forall other, other <> email ->
                   users_db s' !! other = users_db s !! other) /\
    delete_user str_exn email s' = (s', Ok (false, "Usuario no existe")).
Proof.
  intros [p Hp] Hne. rewrite delete_user_run, Hp.
  rewrite decide_False by exact Hne.
  eexists. split; [reflexivity|].
  split; [cbn; apply lookup_delete_eq|].
  split; [intros other Ho; cbn; apply lookup_delete_ne; congruence|].
  rewrite delete_user_run. cbn. rewrite lookup_delete_eq. reflexivity.
Qed.

Lemma delete_user_removes_witness :
  exists s',
    delete_user (fun _ => "") "ana.torres@utem.cl" default_system
    = (s', Ok (true, "Usuario eliminado exitosamente")) /\
    get_user_by_email s' (Some "ana.torres@utem.cl") = None.
Proof.
  destruct (delete_user_removes (fun _ => "") default_system
              "ana.torres@utem.cl")
    as (s' & Hrun & Hget & _).
  - eexists. vm_compute. reflexivity.
  - discriminate.
  - exists s'. split; assumption.
Defined.



(** The stamp stays behind: the dictionary stored for juan.perez@utem.cl
    is passed in for a second identity, and after the addition and the
    deletion the entry of juan.perez@utem.cl carries the new creation
    time. *)
Example add_then_delete_leaves_stamp :
  let juan := new_profile "2025-01-01T00:00:00" "Juan Pérez" "profesor"
                "ingenieria" "informatica" ["lectura"] in
  let s1 := fst (add_user (fun _ => "") ["juan.perez@utem.cl"] false
                   "nueva@utem.cl" juan "2025-03-01T09:00:00"
                   default_system) in
  let s2 := fst (delete_user (fun _ => "") "nueva@utem.cl" s1) in
  users_db default_system !! "juan.perez@utem.cl" = Some juan /\
  users_db s2 !! "nueva@utem.cl" = None /\
  (users_db s2 !! "juan.perez@utem.cl") ≫= fecha_creacion
  = Some "2025-03-01T09:00:00".
Proof. repeat split; vm_compute; reflexivity. Qed.




(** After the deletion the sixth attempt in a row is answered by the rate
    limiter, not by the directory. *)
Example deleted_user_sixth_login :
  let s1 := fst (login (Some "juan.perez@utem.cl") 1000 default_system) in
  let s2 := fst (delete_user (fun _ => "") "juan.perez@utem.cl" s1) in
  snd (login (Some "juan.perez@utem.cl") 1006
         (fst (login_each "juan.perez@utem.cl"
                 [1001; 1002; 1003; 1004; 1005] s2)))
  = Ok (false, "Cuenta bloqueada. Intente nuevamente en 299 segundos.").
Proof. vm_compute. reflexivity. Qed.

End DirectoryMoreProps.

(** ** auth.py: more on sessions and authorization *)

Module SessionMoreProps.
Import Py PyFacts Auth Scenarios AuthzProps SessionProps RateLimitProps
  LoginProps LoginMoreProps DirectoryMoreProps InvariantProps.

(** X20. The bootstrap administrator cannot be removed by any use of the
    class: once admin@utem.cl is in the directory it is still there after
    every sequence of logins, logouts, timeout checks, additions, updates
    and deletions. *)
Theorem admin_entry_persists (cs : list admin_call) (s : system) :
  is_Some (users_db s !! "admin@utem.cl") ->
  is_Some (users_db (run_admin_calls cs s) !! "admin@utem.cl").
Proof.
  unfold run_admin_calls. revert s.
  induction cs as [|c cs IH]; intros s Hadm; cbn [foldl]; [exact Hadm|].
  apply IH. destruct Hadm as [p Hp].
  destruct c as [[email now| |now|email]|aliases shared email user_info created
                |aliases shared email updates modified];
    cbn [run_admin_call run_call].
  - destruct (login_cases s email now) as (la & _ & [[m Hrej]|Hacc]).
    + rewrite Hrej. cbn. eauto.
    + destruct Hacc as (e & ud & _ & _ & _ & _ & Hsucc).
      rewrite Hsucc. cbn. eauto.
  - unfold logout, bind, modify, st_rerun. cbn.
    destruct (script_run s); cbn; eauto.
  - unfold check_session_timeout, bind, gets. cbn.
    destruct (authenticated (session s) && present (last_activity (session s)));
      [|cbn; eauto].
    destruct (_ >? _); cbn; [|eauto].
    unfold logout, bind, modify, st_rerun. cbn.
    destruct (script_run s); cbn; eauto.
  - rewrite delete_user_run.
    destruct (users_db s !! email) as [q|] eqn:Hq; [|cbn; eauto].
    destruct (decide (email = "admin@utem.cl")) as [->|Hne]; cbn; [eauto|].
    rewrite lookup_delete_ne by exact Hne. eauto.
  - apply (proj1 (add_user_keeps aliases shared email user_info created s)).
    eauto.
  - apply (proj1 (update_user_keeps aliases shared email updates modified s)).
    eauto.
Qed.

Lemma admin_entry_persists_witness :
  is_Some
    (users_db
       (run_admin_calls
          [Core (DeleteUser "admin@utem.cl");
           UpdateUser [] false "admin@utem.cl" deactivate
             "2025-03-01T09:00:00";
           Core (Login (Some "admin@utem.cl") 1000);
           Core (DeleteUser "admin@utem.cl")]
          default_system)
     !! "admin@utem.cl").
Proof.
  apply admin_entry_persists. eexists. vm_compute. reflexivity.
Defined.

(** X21. Every session that the class produces from a new system, by
    whatever sequence of logins, logouts, timeout checks, additions,
    updates and deletions, is well formed: if it is marked authenticated it
    has an identity, a profile, a login time and a last activity time. *)
Theorem reachable_admin_session_wf (db : gmap string profile)
    (cfg : config_doc) (cs : list admin_call) :
  session_wf (session (run_admin_calls cs (new_system db cfg))).
Proof.
  unfold run_admin_calls.
  assert (Hinit : session_wf (session (new_system db cfg)))
    by (intros H; discriminate H).
  revert Hinit. generalize (new_system db cfg) as s.
  induction cs as [|c cs IH]; intros s Hwf; cbn [foldl]; [exact Hwf|].
  apply IH.
  destruct c as [c|aliases shared email user_info created
                |aliases shared email updates modified];
    cbn [run_admin_call].
  - apply run_call_session_wf. exact Hwf.
  - apply (proj2 (add_user_keeps aliases shared email user_info created s)).
    exact Hwf.
  - apply (proj2 (update_user_keeps aliases shared email updates modified s)).
    exact Hwf.
Qed.

(** X22. Without an authenticated session nothing is granted and nothing
    fails: every permission check is false, the current user and its data
    are [None], [is_admin] is false, the data filter returns [None], and
    the timeout check answers true without touching the system. *)
Theorem unauthenticated_denied (s : system) :
  authenticated (session s) = false ->
  (forall permission, is_authorized (session s) permission = false) /\
  get_current_user (session s) = None /\
  get_current_user_data (session s) = None /\
  is_admin (session s) = Ok false /\
  (forall lower series_lower data column,
     filter_data_by_role lower series_lower (session s) data column
     = Ok None) /\
  (forall now, check_session_timeout now s = (s, Ok true)).
Proof.
  intros Hno.
  unfold is_authorized, get_current_user, get_current_user_data, is_admin,
    filter_data_by_role, check_session_timeout, bind, gets.
  cbn. rewrite Hno. cbn. repeat split.
Qed.

Lemma unauthenticated_denied_witness :
  is_authorized (session (fst (logout (set_session admin_session
                                         default_system)))) "lectura"
  = false.
Proof.
  apply (proj1 (unauthenticated_denied
                  (fst (logout (set_session admin_session default_system)))
                  eq_refl)).
Defined.

(** X23. An expired session is ended for good: a timeout check that finds
    the session idle for longer than the timeout clears it (and is then
    left by [RerunException] inside a Streamlit script run, by [return
    False] outside one); in the state it leaves, every permission check is
    false, nobody is the current user, the directory is as before, and a
    further timeout check, at any time, answers true although nobody is
    logged in. *)
Theorem expired_session_denied (s : system) (now la : Z) :
  authenticated (session s) = true ->
  last_activity (session s) = Some la ->
  now - la > default 3600 (timeout_sesion (config s)) ->
  exists s',
    check_session_timeout now s
    = (s', if script_run s then Raise RerunException else Ok false) /\
    (forall permission, is_authorized (session s') permission = false) /\
    get_current_user (session s') = None /\
    users_db s' = users_db s /\
    forall later, check_session_timeout later s' = (s', Ok true).
Proof.
  intros Hauth Hla Hgt.
  rewrite (check_session_timeout_run s now la Hauth Hla).
  destruct (Z.gtb_spec (now - la) (default 3600 (timeout_sesion (config s))));
    [|lia].
  destruct (script_run s); eexists; (split; [reflexivity|]); repeat split.
Qed.

Lemma expired_session_denied_witness :
  exists s',
    check_session_timeout 10000 (idle_system 6399)
    = (s', Raise RerunException) /\
    is_authorized (session s') "lectura" = false /\
    check_session_timeout 10001 s' = (s', Ok true).
Proof.
  destruct (expired_session_denied (idle_system 6399) 10000 6399)
    as (s' & Hrun & Hdeny & _ & _ & Hagain).
  - reflexivity.
  - vm_compute. reflexivity.
  - vm_compute. reflexivity.
  - exists s'. split; [exact Hrun|]. split; [apply Hdeny|apply Hagain].
Defined.

Lemma filter_filter_same {A : Type} (P : A -> Prop)
    `{forall x, Decision (P x)} (l : list A) :
  filter P (filter P l) = filter P l.
Proof.
  induction l as [|x l IH]; [reflexivity|].
  rewrite filter_cons. destruct (decide (P x)) as [Hx|Hx]; [|exact IH].
  rewrite filter_cons, decide_True by exact Hx. now rewrite IH.
Qed.

(** X24. The data filter only ever narrows, and narrows once: whatever it
    returns has the columns of the dataset and a sublist of its rows, and
    filtering the result again, for the same session and column, returns it
    unchanged. *)
Theorem filter_data_by_role_idempotent (lower series_lower : string -> string)
    (ss : session_state) (data out : DataFrame) (column : string) :
  filter_data_by_role lower series_lower ss data column = Ok (Some out) ->
  columns out = columns data /\
  rows out `sublist_of` rows data /\
  filter_data_by_role lower series_lower ss out column = Ok (Some out).
Proof.
  unfold filter_data_by_role.
  destruct (negb (authenticated ss)); [discriminate|].
  destruct (decide (get_user_role ss = Some "admin")).
  { intros [= <-]. split; [reflexivity|split; reflexivity]. }
  destruct (user_data ss) as [ud|]; [|discriminate].
  destruct (decide (facultad ud = Some "todas")).
  { intros [= <-]. split; [reflexivity|split; reflexivity]. }
  destruct (str_truthy (departamento ud)); cbn [andb].
  - destruct (bool_decide (column ∈ columns data)) eqn:Hcol.
    + destruct (bool_decide (column ∈ text_columns data)) eqn:Htext;
        [|discriminate].
      intros [= <-]. cbn [columns text_columns select_rows].
      rewrite Hcol, Htext.
      split; [reflexivity|].
      split; [cbn; apply sublist_filter|].
      unfold select_rows. cbn. rewrite filter_filter_same. reflexivity.
    + intros [= <-]. rewrite Hcol. split; [reflexivity|split; reflexivity].
  - intros [= <-]. split; [reflexivity|split; reflexivity].
Qed.

Lemma filter_data_by_role_idempotent_witness :
  filter_data_by_role ascii_lower ascii_lower profesor_informatica
    {| columns := ["curso"; "departamento"];
       text_columns := ["curso"; "departamento"];
       rows := [course_row "Algoritmos" "informatica";
                course_row "Redes" "informatica"] |} "departamento"
  = Ok (Some {| columns := ["curso"; "departamento"];
                text_columns := ["curso"; "departamento"];
                rows := [course_row "Algoritmos" "informatica";
                         course_row "Redes" "informatica"] |}).
Proof.
  apply (filter_data_by_role_idempotent ascii_lower ascii_lower
           profesor_informatica courses).
  vm_compute. reflexivity.
Defined.

(** X25. On a well-formed session, such as every session the class
    produces, [is_admin] does not raise, and the data filter raises nothing
    but the [AttributeError] of the [.str] accessor, and that only for a
    scope column that is in the dataset without being a column of strings;
    [is_admin] is true exactly when the role of the session is admin, and
    then every permission is granted and the data filter returns the
    dataset unchanged, whatever its columns. *)
Theorem is_admin_consistent (lower series_lower : string -> string)
    (ss : session_state) (data : DataFrame) (column permission : string) :
  session_wf ss ->
  (exists b, is_admin ss = Ok b /\
             (b = true <-> get_user_role ss = Some "admin")) /\
  ((exists r, filter_data_by_role lower series_lower ss data column = Ok r) \/
   (filter_data_by_role lower series_lower ss data column
    = Raise AttributeError /\
    column ∈ columns data /\ column ∉ text_columns data)) /\
  (is_admin ss = Ok true ->
   is_authorized ss permission = true /\
   filter_data_by_role lower series_lower ss data column = Ok (Some data)).
Proof.
  intros Hwf. unfold session_wf in Hwf.
  destruct (authenticated ss) eqn:Hauth.
  - destruct (Hwf eq_refl) as (_ & [ud Hud] & _).
    pose proof (get_user_role_eq ss ud Hauth Hud) as Hrole.
    unfold is_admin, is_authorized, filter_data_by_role.
    rewrite Hauth, Hud, Hrole. cbn [negb].
    split; [|split].
    + eexists. split; [reflexivity|]. apply bool_decide_eq_true.
    + destruct (decide (rol ud = Some "admin")); [eauto|].
      destruct (decide (facultad ud = Some "todas")); [eauto|].
      destruct (str_truthy (departamento ud)); cbn [andb]; [|eauto].
      destruct (bool_decide (column ∈ columns data)) eqn:Hcol; [|eauto].
      destruct (bool_decide (column ∈ text_columns data)) eqn:Htext;
        [eauto|].
      right. split; [reflexivity|].
      apply bool_decide_eq_true in Hcol.
      apply bool_decide_eq_false in Htext.
      split; assumption.
    + intros [= Hadm]. apply bool_decide_eq_true in Hadm.
      rewrite !decide_True by exact Hadm. split; reflexivity.
  - unfold is_admin, is_authorized, filter_data_by_role, get_user_role.
    rewrite Hauth. cbn. split; [|split].
    + exists false. split; [reflexivity|]. split; discriminate.
    + eauto.
    + discriminate.
Qed.

Lemma is_admin_consistent_witness :
  is_authorized admin_session "gestion" = true /\
  filter_data_by_role ascii_lower ascii_lower admin_session courses
    "departamento"
  = Ok (Some courses).
Proof.
  refine (proj2 (proj2 (is_admin_consistent ascii_lower ascii_lower
                          admin_session courses "departamento" "gestion" _))
            _).
  - intros _. cbn. eauto.
  - reflexivity.
Defined.

End SessionMoreProps.
